(** * LieLens front end: endpoint resolver, analysis orchestrator and
      demo-report synthesizer

    A shallow embedding of the enhanced front-end script
    ([checkBackendConnection], [analyzeContent], [getDemoAnalysis]) and of
    the submit handler of [lielens-frontend/script.js], with the properties
    the specification states about them.

    Conventions of the embedding:
    - a JavaScript string is the list of its UTF-16 code units;
    - a JavaScript value (JSON fragment) is the inductive type [value];
      an object literal is the ordered list of its properties;
    - the numbers the program computes with are small integers, kept as [Z];
    - an [async] function is run to completion, each [await] in sequence
      (the page has one handler in flight at a time);
    - handlers are computations over the page state [Page] that either
      finish or throw, with [try]/[catch]/[finally] written out. *)

From Stdlib Require Import ZArith NArith List String Ascii Bool Lia DecimalString.
Import ListNotations.

Set Implicit Arguments.
Set Warnings "-register-all".

(* ================================================================== *)
(** ** JavaScript strings *)
(* ================================================================== *)

Module JsString.

Definition codeUnit := N.
Definition jsstring := list codeUnit.

(** A source literal (ASCII only in this program) as code units. *)
Definition js (s : string) : jsstring :=
  List.map N_of_ascii (list_ascii_of_string s).

Fixpoint eqb (a b : jsstring) : bool :=
  match a, b with
  | [], [] => true
  | x :: a', y :: b' => N.eqb x y && eqb a' b'
  | _, _ => false
  end.

(** [s.length] *)
Definition length (s : jsstring) : Z := Z.of_nat (List.length s).

(** [s.substring(0, n)] for a literal [n >= 0]: indices are clamped to
    the length of the string. *)
Definition substring0 (n : nat) (s : jsstring) : jsstring := firstn n s.

(** [pat] is a prefix of [s]. *)
Fixpoint startsWith (pat s : jsstring) : bool :=
  match pat, s with
  | [], _ => true
  | _ :: _, [] => false
  | p :: pat', c :: s' => N.eqb p c && startsWith pat' s'
  end.

(** Scan of the start positions [0 .. s.length] from left to right, as
    [String.prototype.includes] and [RegExp.prototype.test] (without the
    [g] and [y] flags) do. *)
Fixpoint anyPosition (m : jsstring -> bool) (s : jsstring) : bool :=
  m s || match s with
         | [] => false
         | _ :: t => anyPosition m t
         end.

(** [s.includes(needle)] *)
Definition includes (needle s : jsstring) : bool :=
  anyPosition (startsWith needle) s.

(** ECMAScript WhiteSpace and LineTerminator code points, the set
    [String.prototype.trim] strips. *)
Definition isWhiteSpace (c : codeUnit) : bool :=
  existsb (N.eqb c)
    [9; 10; 11; 12; 13; 32; 160; 5760; 8232; 8233; 8239; 8287; 12288; 65279]%N
  || ((8192 <=? c) && (c <=? 8202))%N.

Fixpoint trimStart (s : jsstring) : jsstring :=
  match s with
  | c :: t => if isWhiteSpace c then trimStart t else s
  | [] => []
  end.

(** [s.trim()] *)
Definition trim (s : jsstring) : jsstring :=
  rev (trimStart (rev (trimStart s))).

End JsString.
Import JsString.

(* ================================================================== *)
(** ** Regular expressions of the program *)
(* ================================================================== *)

Module RegExp.

Section Canonicalize.

(** [String.prototype.toUpperCase] on the one-character string of a
    code unit outside ASCII: the Unicode table, left open. *)
Variable unicodeUpper : codeUnit -> jsstring.

Definition toUpperCase1 (ch : codeUnit) : jsstring :=
  if (ch <? 128)%N
  then [if ((97 <=? ch) && (ch <=? 122))%N then (ch - 32)%N else ch]
  else unicodeUpper ch.

(** Canonicalize of the ECMAScript specification for a pattern with the
    [i] flag and without the [u] flag. *)
Definition Canonicalize (ch : codeUnit) : codeUnit :=
  match toUpperCase1 ch with
  | [cu] => if ((128 <=? ch) && (cu <? 128))%N then ch else cu
  | _ => ch
  end.

(** A literal alternative matched at the start of [s], ignoring case. *)
Fixpoint matchLiteralI (pat s : jsstring) : bool :=
  match pat, s with
  | [], _ => true
  | _ :: _, [] => false
  | p :: pat', c :: s' =>
      N.eqb (Canonicalize p) (Canonicalize c) && matchLiteralI pat' s'
  end.

(** A disjunction [w1|w2|...] of literals matched at the start of [s]. *)
Definition matchDisjunctionI (alts : list jsstring) (s : jsstring) : bool :=
  existsb (fun p => matchLiteralI p s) alts.

(** [/w1|w2|.../i.test(s)] *)
Definition testDisjunctionI (alts : list jsstring) (s : jsstring) : bool :=
  anyPosition (matchDisjunctionI alts) s.

End Canonicalize.

(** The class [[A-Z]] (no [i] flag). *)
Definition classAZ (c : codeUnit) : bool := ((65 <=? c) && (c <=? 90))%N.

(** [cls{n,}] at the start of [s]: [n] members of the class; the greedy
    tail of the quantifier can then stop anywhere, so a match exists as
    soon as the first [n] are there. *)
Fixpoint matchAtLeast (n : nat) (cls : codeUnit -> bool) (s : jsstring) : bool :=
  match n with
  | O => true
  | S k => match s with
           | [] => false
           | c :: t => cls c && matchAtLeast k cls t
           end
  end.

(** [/cls{n,}/.test(s)] *)
Definition testAtLeast (n : nat) (cls : codeUnit -> bool) (s : jsstring) : bool :=
  anyPosition (matchAtLeast n cls) s.

End RegExp.

(* ================================================================== *)
(** ** JavaScript values *)
(* ================================================================== *)

Module Value.

Inductive value : Type :=
| Null
| Bool (b : bool)
| Num (n : Z)
| Str (s : jsstring)
| Arr (items : list value)
| Obj (props : list (string * value)).

Fixpoint assoc (k : string) (props : list (string * value)) : option value :=
  match props with
  | [] => None
  | (k', v) :: rest => if String.eqb k k' then Some v else assoc k rest
  end.

(** [v.k]; [None] stands for [undefined]. *)
Definition get (k : string) (v : value) : option value :=
  match v with
  | Obj props => assoc k props
  | _ => None
  end.

(** [v.k1.k2...] *)
Fixpoint getPath (path : list string) (v : value) : option value :=
  match path with
  | [] => Some v
  | k :: rest => match get k v with
                 | Some v' => getPath rest v'
                 | None => None
                 end
  end.

Fixpoint remove (k : string) (props : list (string * value)) : list (string * value) :=
  match props with
  | [] => []
  | (k', v) :: rest => if String.eqb k k' then remove k rest else (k', v) :: remove k rest
  end.

Definition isStr (v : value) : bool := match v with Str _ => true | _ => false end.

End Value.
Import Value.

(* ================================================================== *)
(** ** The demo analysis generator ([getDemoAnalysis]) *)
(* ================================================================== *)

Section Synthesizer.

Local Open Scope string_scope.
Local Open Scope Z_scope.

Variable unicodeUpper : codeUnit -> jsstring.

(** The alternatives of
    [/breaking|shocking|secret|exclusive|banned|hidden|urgent/i]. *)
Definition emotionalWords : list jsstring :=
  [js "breaking"; js "shocking"; js "secret"; js "exclusive";
   js "banned"; js "hidden"; js "urgent"].

Definition hasURL (content : jsstring) : bool :=
  includes (js "http") content.

Definition hasEmotionalWords (content : jsstring) : bool :=
  RegExp.testDisjunctionI unicodeUpper emotionalWords content.

(** [/[A-Z]{4,}/.test(content)] *)
Definition hasAllCaps (content : jsstring) : bool :=
  RegExp.testAtLeast 4 RegExp.classAZ content.

(** The value of the local [riskScore] after its four updates. *)
Definition riskScore (content : jsstring) : Z :=
  let contentLength := JsString.length content in
  let riskScore := 30 in
  let riskScore := if hasEmotionalWords content then riskScore + 25 else riskScore in
  let riskScore := if hasAllCaps content then riskScore + 20 else riskScore in
  let riskScore := if includes (js "!") content then riskScore + 10 else riskScore in
  let riskScore := if contentLength <? 100 then riskScore - 10 else riskScore in
  riskScore.

Definition riskLevel (content : jsstring) : jsstring :=
  let riskScore := riskScore content in
  if riskScore >? 70 then js "HIGH"
  else if riskScore >? 50 then js "MEDIUM" else js "LOW".

Definition credibility (content : jsstring) : jsstring :=
  let riskScore := riskScore content in
  if riskScore >? 70 then js "QUESTIONABLE"
  else if riskScore >? 50 then js "QUESTIONABLE" else js "RELIABLE".

Definition emotionalTactics (content : jsstring) : list value :=
  [ Obj [ ("tactic_name", Str (js "Emotional Manipulation"));
          ("description", Str (js "Uses strong emotional language to bypass critical thinking"));
          ("example_from_content", Str (substring0 100 content ++ js "...")%list);
          ("manipulation_type", Str (js "EMOTIONAL")) ];
    Obj [ ("tactic_name", Str (js "Urgency Creation"));
          ("description", Str (js "Creates artificial time pressure to prompt immediate action"));
          ("example_from_content", Str (js "Act fast"));
          ("manipulation_type", Str (js "SOCIAL")) ] ].

Definition demoTactics : list value :=
  [ Obj [ ("tactic_name", Str (js "Demo Analysis"));
          ("description", Str (js "This is a demonstration of our analysis capabilities"));
          ("example_from_content", Str (js "Sample content analysis"));
          ("manipulation_type", Str (js "LOGICAL")) ] ].

Definition fixedBiases : list value :=
  [ Obj [ ("bias_name", Str (js "Fear of Missing Out (FOMO)"));
          ("explanation", Str (js "The tendency to feel anxiety about missing beneficial opportunities"));
          ("how_its_exploited", Str (js "Content suggests exclusive or time-limited information"));
          ("resistance_tip", Str (js "Ask yourself: What's the real urgency? Can I verify this independently?")) ];
    Obj [ ("bias_name", Str (js "Authority Bias"));
          ("explanation", Str (js "Tendency to trust information from perceived authority figures"));
          ("how_its_exploited", Str (js "References to 'scientists' or 'experts' without specific credentials"));
          ("resistance_tip", Str (js "Check the actual credentials and affiliations of cited experts")) ] ].

Definition emotionalFlags : list value :=
  [ Obj [ ("claim", Str (js "Scientists are 'shocked' by this discovery"));
          ("flag_reason", Str (js "Vague, unsupported claims about scientific consensus"));
          ("verification_suggestion", Str (js "Look for peer-reviewed studies and specific researcher names")) ] ].

(** [getDemoAnalysis(content)]; [now] is what [new Date().toISOString()]
    gives at the call. *)
Definition getDemoAnalysis (now : jsstring) (content : jsstring) : value :=
  let contentLength := JsString.length content in
  let hasURL := hasURL content in
  let hasEmotionalWords := hasEmotionalWords content in
  let riskScore := riskScore content in
  let riskLevel := riskLevel content in
  let credibility := credibility content in
  Obj [
    ("analysis_summary", Obj [
       ("risk_level", Str riskLevel);
       ("risk_score", Num (Z.min riskScore 95));
       ("primary_concern",
          Str (if hasEmotionalWords
               then js "Content uses emotional manipulation and urgency tactics"
               else js "Content appears relatively neutral"));
       ("credibility_rating", Str credibility) ]);
    ("detected_tactics",
       Arr (if hasEmotionalWords then emotionalTactics content else demoTactics));
    ("cognitive_biases", Arr fixedBiases);
    ("fact_check_flags", Arr (if hasEmotionalWords then emotionalFlags else []));
    ("educational_insights", Obj [
       ("why_convincing",
          Str (if hasEmotionalWords
               then js "Uses emotional triggers and authority appeals to create trust and urgency"
               else js "Content appears straightforward without obvious manipulation"));
       ("target_audience", Str (js "People seeking health solutions or exclusive information"));
       ("psychological_appeal", Str (js "Combines fear, hope, and exclusivity to motivate action"));
       ("critical_questions", Arr [
          Str (js "Who specifically are these 'scientists'?");
          Str (js "What evidence supports these claims?");
          Str (js "Why would this information be suppressed?");
          Str (js "What are the potential risks or side effects?") ]);
       ("verification_steps", Arr [
          Str (js "Search for peer-reviewed research on this topic");
          Str (js "Check multiple reputable health information sources");
          Str (js "Consult with healthcare professionals");
          Str (js "Look for potential conflicts of interest") ]) ]);
    ("recommendations", Obj [
       ("immediate_action",
          Str (if riskScore >? 70
               then js "Exercise extreme caution - verify all claims before acting"
               else js "Proceed with normal fact-checking practices"));
       ("further_research", Arr [
          Str (js "Search scientific databases for related research");
          Str (js "Check fact-checking websites");
          Str (js "Consult domain experts") ]);
       ("share_decision",
          Str (if riskScore >? 70 then js "AVOID_SHARING" else js "SHARE_WITH_CONTEXT"));
       ("learning_opportunity", Str (js "Practice identifying emotional manipulation in content")) ]);
    ("confidence_metrics", Obj [
       ("analysis_confidence", Num 75);
       ("data_completeness", Num 60);
       ("context_availability", Str (js "PARTIAL")) ]);
    ("metadata", Obj [
       ("analysis_timestamp", Str now);
       ("model_used", Str (js "demo-mode"));
       ("content_length", Num contentLength);
       ("source_type", Str (if hasURL then js "url" else js "text")) ])
  ].

End Synthesizer.

(* ================================================================== *)
(** ** The page: state, network, exceptions *)
(* ================================================================== *)

Module Dom.

(** A thrown [Error]; the program only reads its [message]. *)
Record Error : Type := mkError { message : jsstring }.

(** The arguments of a [fetch] call. [body] is the value whose JSON text
    is sent ([JSON.stringify]). *)
Record Request : Type := mkRequest {
  url : jsstring;
  method : jsstring;
  mode : option jsstring;
  headers : list (string * jsstring);
  body : option value
}.

(** What [response.json()] does: reject, or resolve with the parsed value. *)
Inductive Json : Type :=
| JsonRejects (e : Error)
| JsonResolves (v : value).

Record Response : Type := mkResponse {
  status : Z;
  statusText : jsstring;
  json : Json
}.

(** [response.ok]: the status is in the range 200-299. *)
Definition ok (r : Response) : bool :=
  ((200 <=? status r) && (status r <=? 299))%Z.

(** What [await fetch(...)] does: reject (network error, CORS refusal),
    or resolve with a response of any status. *)
Inductive FetchOutcome : Type :=
| Rejects (e : Error)
| Responds (r : Response).

(** Calls to the outside of the core, in the order they are made. *)
Inductive Event : Type :=
| Fetch (req : Request)
| ConsoleLog (args : list jsstring)
| ConsoleError (args : list jsstring)
| Notification (text : jsstring)
| DisplayReport (data : value).

Record Page : Type := mkPage {
  activeBackendUrl : option jsstring;       (* [None] is [null] *)
  contentInput_value : jsstring;
  statusText_textContent : jsstring;
  statusIcon_className : jsstring;
  errorMessage_textContent : jsstring;
  resultsSection_hidden : bool;
  errorSection_hidden : bool;
  loadingOverlay_hidden : bool;
  analyzeBtn_loading : bool;
  events : list Event                       (* oldest first *)
}.

Definition set_activeBackendUrl (u : option jsstring) (p : Page) : Page :=
  mkPage u (contentInput_value p) (statusText_textContent p)
         (statusIcon_className p) (errorMessage_textContent p)
         (resultsSection_hidden p) (errorSection_hidden p)
         (loadingOverlay_hidden p) (analyzeBtn_loading p) (events p).

Definition set_statusText (t : jsstring) (p : Page) : Page :=
  mkPage (activeBackendUrl p) (contentInput_value p) t
         (statusIcon_className p) (errorMessage_textContent p)
         (resultsSection_hidden p) (errorSection_hidden p)
         (loadingOverlay_hidden p) (analyzeBtn_loading p) (events p).

Definition set_statusIcon (c : jsstring) (p : Page) : Page :=
  mkPage (activeBackendUrl p) (contentInput_value p) (statusText_textContent p)
         c (errorMessage_textContent p)
         (resultsSection_hidden p) (errorSection_hidden p)
         (loadingOverlay_hidden p) (analyzeBtn_loading p) (events p).

Definition set_errorMessage (t : jsstring) (p : Page) : Page :=
  mkPage (activeBackendUrl p) (contentInput_value p) (statusText_textContent p)
         (statusIcon_className p) t
         (resultsSection_hidden p) (errorSection_hidden p)
         (loadingOverlay_hidden p) (analyzeBtn_loading p) (events p).

Definition set_resultsHidden (h : bool) (p : Page) : Page :=
  mkPage (activeBackendUrl p) (contentInput_value p) (statusText_textContent p)
         (statusIcon_className p) (errorMessage_textContent p)
         h (errorSection_hidden p)
         (loadingOverlay_hidden p) (analyzeBtn_loading p) (events p).

Definition set_errorHidden (h : bool) (p : Page) : Page :=
  mkPage (activeBackendUrl p) (contentInput_value p) (statusText_textContent p)
         (statusIcon_className p) (errorMessage_textContent p)
         (resultsSection_hidden p) h
         (loadingOverlay_hidden p) (analyzeBtn_loading p) (events p).

Definition set_loadingHidden (h : bool) (p : Page) : Page :=
  mkPage (activeBackendUrl p) (contentInput_value p) (statusText_textContent p)
         (statusIcon_className p) (errorMessage_textContent p)
         (resultsSection_hidden p) (errorSection_hidden p)
         h (analyzeBtn_loading p) (events p).

Definition set_analyzeBtnLoading (l : bool) (p : Page) : Page :=
  mkPage (activeBackendUrl p) (contentInput_value p) (statusText_textContent p)
         (statusIcon_className p) (errorMessage_textContent p)
         (resultsSection_hidden p) (errorSection_hidden p)
         (loadingOverlay_hidden p) l (events p).

Definition emit (e : Event) (p : Page) : Page :=
  mkPage (activeBackendUrl p) (contentInput_value p) (statusText_textContent p)
         (statusIcon_className p) (errorMessage_textContent p)
         (resultsSection_hidden p) (errorSection_hidden p)
         (loadingOverlay_hidden p) (analyzeBtn_loading p) (events p ++ [e]).

(** The [fetch] requests among a list of events, in order. *)
Fixpoint requests (evs : list Event) : list Request :=
  match evs with
  | [] => []
  | Fetch r :: rest => r :: requests rest
  | _ :: rest => requests rest
  end.

(** The values handed to [displayReport], in order. *)
Fixpoint displayed (evs : list Event) : list value :=
  match evs with
  | [] => []
  | DisplayReport d :: rest => d :: displayed rest
  | _ :: rest => displayed rest
  end.

Fixpoint notifications (evs : list Event) : list jsstring :=
  match evs with
  | [] => []
  | Notification t :: rest => t :: notifications rest
  | _ :: rest => notifications rest
  end.

(** *** Computations over the page that finish or throw *)

Inductive Completion (A : Type) : Type :=
| Normal (a : A)
| Throw (e : Error).
Arguments Throw {A} e.

Definition M (A : Type) : Type := Page -> Page * Completion A.

Definition ret {A} (a : A) : M A := fun p => (p, Normal a).

Definition throw {A} (e : Error) : M A := fun p => (p, Throw e).

Definition bind {A B} (c : M A) (k : A -> M B) : M B :=
  fun p => match c p with
           | (p', Normal a) => k a p'
           | (p', Throw e) => (p', Throw e)
           end.

(** [try { c } catch (e) { h e }] *)
Definition tryCatch {A} (c : M A) (h : Error -> M A) : M A :=
  fun p => match c p with
           | (p', Normal a) => (p', Normal a)
           | (p', Throw e) => h e p'
           end.

(** [try { c } finally { f }], for an [f] that does not throw or return. *)
Definition tryFinally {A} (c : M A) (f : M unit) : M A :=
  fun p => match c p with
           | (p', r) => match f p' with
                        | (p'', Normal _) => (p'', r)
                        | (p'', Throw e) => (p'', Throw e)
                        end
           end.

Definition read {A} (f : Page -> A) : M A := fun p => (p, Normal (f p)).

Definition modify (f : Page -> Page) : M unit := fun p => (f p, Normal tt).

Definition run {A} (c : M A) (p : Page) : Page := fst (c p).

End Dom.
Import Dom.

Declare Scope js_scope.
Delimit Scope js_scope with js.
Notation "x <- c ;; k" := (bind c (fun x => k))
  (at level 61, c at next level, right associativity) : js_scope.
Notation "c ;; k" := (bind c (fun _ => k))
  (at level 61, right associativity) : js_scope.

(* ================================================================== *)
(** ** The enhanced script: resolver and orchestrator *)
(* ================================================================== *)

(** The candidate list of the script. *)
Definition backendUrls : list jsstring :=
  [ js "https://your-render-app.onrender.com";
    js "https://your-railway-app.up.railway.app";
    js "http://localhost:8000";
    js "https://mindful-compass-api-1082426526892.us-central1.run.app" ].

(** The page as the script finds it when it is loaded: [activeBackendUrl]
    is [null], the sections and the overlay are hidden. *)
Definition initialPage (input : jsstring) : Page :=
  mkPage None input [] [] [] true true true false [].

(** Template literal [`${n}`] for an integer. *)
Definition numberToString (n : Z) : jsstring :=
  js (NilZero.string_of_int (Z.to_int n)).

(** A string in a condition: the empty string is falsy. *)
Definition truthy (s : jsstring) : bool :=
  match s with [] => false | _ :: _ => true end.

Section Core.

Local Open Scope string_scope.
Local Open Scope list_scope.
Local Open Scope js_scope.

(** The Unicode upper-case table outside ASCII (see [RegExp]). *)
Variable unicodeUpper : codeUnit -> jsstring.

(** The network: the outcome of a [fetch], given the requests made
    before it. *)
Variable network : list Request -> Request -> FetchOutcome.

(** The clock: [new Date().toISOString()], given the events so far. *)
Variable clock : list Event -> jsstring.

(** The rendering collaborator: whether the body of [displayReport]
    throws on a value, and with which error. *)
Variable rendering : value -> option Error.

Definition consoleLog (args : list jsstring) : M unit :=
  modify (emit (ConsoleLog args)).

Definition consoleError (args : list jsstring) : M unit :=
  modify (emit (ConsoleError args)).

(** [await fetch(url, init)] *)
Definition fetch (req : Request) : M Response :=
  fun p =>
    let p' := emit (Fetch req) p in
    match network (requests (events p)) req with
    | Rejects e => (p', Throw e)
    | Responds r => (p', Normal r)
    end.

(** [await response.json()] *)
Definition responseJson (r : Response) : M value :=
  match json r with
  | JsonRejects e => throw e
  | JsonResolves v => ret v
  end.

Definition toISOStringNow : M jsstring := read (fun p => clock (events p)).

Definition showLoading (show : bool) : M unit :=
  if show
  then modify (set_loadingHidden false) ;; modify (set_analyzeBtnLoading true)
  else modify (set_loadingHidden true) ;; modify (set_analyzeBtnLoading false).

Definition showError (message : jsstring) : M unit :=
  modify (set_errorMessage message) ;;
  modify (set_errorHidden false).

Definition showNotification (message : jsstring) : M unit :=
  modify (emit (Notification message)).

(** [displayReport(data)]: the results section is shown first, then the
    fields of [data] are written into the page, which is where the
    function can throw. *)
Definition displayReport (data : value) : M unit :=
  modify (emit (DisplayReport data)) ;;
  modify (set_resultsHidden false) ;;
  match rendering data with
  | Some e => throw e
  | None => ret tt
  end.

Definition probeRequest (url : jsstring) : Request :=
  mkRequest (url ++ js "/") (js "GET") (Some (js "cors"))
            [("Accept", js "application/json")] None.

(** One turn of the [for] loop of [checkBackendConnection]: [true] when
    the turn ends in [return]. *)
Definition probe (url : jsstring) : M bool :=
  tryCatch
    (consoleLog [js "Testing backend: " ++ url] ;;
     response <- fetch (probeRequest url) ;;
     if ok response then
       modify (set_activeBackendUrl (Some url)) ;;
       modify (set_statusText (js "Connected to backend")) ;;
       modify (set_statusIcon (js "fas fa-circle text-success")) ;;
       consoleLog [js "Active backend: " ++ url] ;;
       ret true
     else ret false)
    (fun error =>
       consoleLog [js "Backend " ++ url ++ js " not available:"; message error] ;;
       ret false).

Fixpoint probeAll (urls : list jsstring) : M unit :=
  match urls with
  | [] =>
      modify (set_statusText (js "Backend offline - Demo mode only")) ;;
      modify (set_statusIcon (js "fas fa-circle text-error")) ;;
      consoleLog [js "No backend available, using demo mode"]
  | url :: rest =>
      found <- probe url ;;
      if found then ret tt else probeAll rest
  end.

(** [checkBackendConnection()], over the candidate list [urls] (the
    script runs it once, on [backendUrls], when the page is loaded). *)
Definition checkBackendConnection (urls : list jsstring) : M unit :=
  modify (set_statusText (js "Checking backend connection...")) ;;
  modify (set_statusIcon (js "fas fa-circle text-warning")) ;;
  probeAll urls.

Definition analyzeRequest (base content : jsstring) : Request :=
  mkRequest (base ++ js "/analyze") (js "POST") (Some (js "cors"))
            [("Content-Type", js "application/json");
             ("Accept", js "application/json")]
            (Some (Obj [("content", Str content)])).

(** The inner [try] of [analyzeContent]: the live call. *)
Definition liveAnalysis (base content : jsstring) : M value :=
  response <- fetch (analyzeRequest base content) ;;
  if negb (ok response) then
    throw (mkError (js "HTTP " ++ numberToString (status response)
                      ++ js ": " ++ statusText response))
  else responseJson response.

(** The synthesizer call, with the clock read at the call. *)
Definition demoAnalysis (content : jsstring) : M value :=
  now <- toISOStringNow ;;
  ret (getDemoAnalysis unicodeUpper now content).

(** [analyzeContent()] *)
Definition analyzeContent : M unit :=
  content <- read (fun p => trim (contentInput_value p)) ;;
  if negb (truthy content) then
    showError (js "Please enter some content to analyze")
  else
    showLoading true ;;
    modify (set_resultsHidden true) ;;
    modify (set_errorHidden true) ;;
    tryFinally
      (tryCatch
         (active <- read activeBackendUrl ;;
          analysisData <-
            match active with
            | Some (c :: base) =>
                tryCatch
                  (liveAnalysis (c :: base) content)
                  (fun backendError =>
                     consoleError [js "Backend error:"; message backendError] ;;
                     analysisData <- demoAnalysis content ;;
                     showNotification (js "Using demo mode - backend temporarily unavailable") ;;
                     ret analysisData)
            | _ =>
                analysisData <- demoAnalysis content ;;
                showNotification (js "Running in demo mode") ;;
                ret analysisData
            end ;;
          displayReport analysisData)
         (fun error =>
            showError (js "Analysis failed: " ++ message error) ;;
            consoleError [js "Error:"; message error]))
      (showLoading false).

End Core.

(* ================================================================== *)
(** ** The submit handler of [lielens-frontend/script.js] *)
(* ================================================================== *)

Module ScriptJs.

Definition backendUrl : jsstring :=
  js "https://mindful-compass-api-1082426526892.us-central1.run.app".

(** A value in a condition. *)
Definition truthyValue (v : value) : bool :=
  match v with
  | Null => false
  | Bool b => b
  | Num n => negb (n =? 0)%Z
  | Str s => truthy s
  | Arr _ | Obj _ => true
  end.

Section Handler.

Local Open Scope string_scope.
Local Open Scope list_scope.
Local Open Scope js_scope.

Variable network : list Request -> Request -> FetchOutcome.

(** Whether the body of this file's [displayReport] throws. *)
Variable rendering : value -> option Error.

(** [String(v)] for a truthy value that is not a string, as
    [new Error(v)] computes its message. *)
Variable ToString : value -> jsstring.

(** The [TypeError] of a property read on [null]. *)
Variable nullPropertyError : Error.

Definition showLoading (show : bool) : M unit :=
  if show then modify (set_loadingHidden false)
  else modify (set_loadingHidden true).

Definition showError (message : jsstring) : M unit :=
  modify (set_errorMessage message) ;;
  modify (set_errorHidden false).

Definition displayReport (data : value) : M unit :=
  modify (emit (DisplayReport data)) ;;
  modify (set_resultsHidden false) ;;
  match rendering data with
  | Some e => throw e
  | None => ret tt
  end.

Definition analyzeRequest (content : jsstring) : Request :=
  mkRequest (backendUrl ++ js "/analyze") (js "POST") None
            [("Content-Type", js "application/json")]
            (Some (Obj [("content", Str content)])).

(** [new Error(errorData.detail || 'Analysis failed')] *)
Definition errorOfDetail (errorData : value) : M Error :=
  match errorData with
  | Null => throw nullPropertyError
  | _ =>
      match get "detail" errorData with
      | Some d =>
          if truthyValue d
          then ret (mkError (match d with Str s => s | _ => ToString d end))
          else ret (mkError (js "Analysis failed"))
      | None => ret (mkError (js "Analysis failed"))
      end
  end.

(** The listener of the form's [submit] event. *)
Definition submitHandler : M unit :=
  content <- read (fun p => trim (contentInput_value p)) ;;
  if negb (truthy content) then ret tt
  else
    showLoading true ;;
    modify (set_resultsHidden true) ;;
    modify (set_errorHidden true) ;;
    tryFinally
      (tryCatch
         (response <- fetch network (analyzeRequest content) ;;
          (if negb (ok response) then
             errorData <- responseJson response ;;
             e <- errorOfDetail errorData ;;
             throw e
           else ret tt) ;;
          analysisData <- responseJson response ;;
          displayReport analysisData)
         (fun error =>
            showError (message error) ;;
            consoleError [js "Error:"; message error]))
      (showLoading false).

End Handler.

End ScriptJs.

(* ================================================================== *)
(** ** Vocabulary of the specification *)
(* ================================================================== *)

Module Spec.

Local Open Scope string_scope.

(** [c] is the lower-case ASCII letter [p] or its upper-case form. *)
Definition sameLetter (p c : codeUnit) : Prop :=
  c = p \/ (c + 32 = p)%N.

(** The content contains one of the trigger words, in any mix of case. *)
Definition ContainsTriggerWord (content : jsstring) : Prop :=
  exists w pre mid post,
    In w emotionalWords /\ content = (pre ++ mid ++ post)%list /\
    Forall2 sameLetter w mid.

(** The content contains a run of 4 or more consecutive letters [A]-[Z]. *)
Definition ContainsCapsRun (content : jsstring) : Prop :=
  exists pre run post,
    content = (pre ++ run ++ post)%list /\ 4 <= List.length run /\
    Forall (fun c => (65 <= c <= 90)%N) run.

(** The content contains the character [!]. *)
Definition ContainsBang (content : jsstring) : Prop := In 33%N content.

(** The scoring rule of the specification, on the four observations. *)
Definition score (trigger caps bang short : bool) : Z :=
  (30 + (if trigger then 25 else 0) + (if caps then 20 else 0)
      + (if bang then 10 else 0) - (if short then 10 else 0))%Z.

(** The report without [metadata.analysis_timestamp]. *)
Definition withoutTimestamp (report : value) : value :=
  match report with
  | Obj props =>
      Obj (List.map
             (fun kv =>
                if String.eqb (fst kv) "metadata"
                then (fst kv,
                      match snd kv with
                      | Obj m => Obj (remove "analysis_timestamp" m)
                      | v => v
                      end)
                else kv)
             props)
  | v => v
  end.

(** *** The Report schema *)

Definition isEnum (names : list string) (v : value) : bool :=
  match v with
  | Str s => existsb (fun n => JsString.eqb s (js n)) names
  | _ => false
  end.

Definition isInt (lo hi : Z) (v : value) : bool :=
  match v with
  | Num n => ((lo <=? n) && (n <=? hi))%Z
  | _ => false
  end.

Definition isCount (v : value) : bool :=
  match v with
  | Num n => (0 <=? n)%Z
  | _ => false
  end.

Definition listOf (item : value -> bool) (v : value) : bool :=
  match v with
  | Arr items => forallb item items
  | _ => false
  end.

(** An object with exactly the given fields, each of its kind. *)
Definition record (fields : list (string * (value -> bool))) (v : value) : bool :=
  match v with
  | Obj props =>
      forallb (fun f => match assoc (fst f) props with
                        | Some x => snd f x
                        | None => false
                        end) fields
      && forallb (fun kv => existsb (String.eqb (fst kv)) (List.map fst fields)) props
  | _ => false
  end.

Definition tacticSchema : value -> bool :=
  record [ ("tactic_name", isStr); ("description", isStr);
           ("example_from_content", isStr);
           ("manipulation_type", isEnum ["EMOTIONAL"; "SOCIAL"; "LOGICAL"]) ].

Definition biasSchema : value -> bool :=
  record [ ("bias_name", isStr); ("explanation", isStr);
           ("how_its_exploited", isStr); ("resistance_tip", isStr) ].

Definition flagSchema : value -> bool :=
  record [ ("claim", isStr); ("flag_reason", isStr);
           ("verification_suggestion", isStr) ].

Definition summarySchema : value -> bool :=
  record [ ("risk_level", isEnum ["LOW"; "MEDIUM"; "HIGH"]);
           ("risk_score", isInt 0 100);
           ("primary_concern", isStr);
           ("credibility_rating", isEnum ["RELIABLE"; "QUESTIONABLE"]) ].

Definition insightsSchema : value -> bool :=
  record [ ("why_convincing", isStr); ("target_audience", isStr);
           ("psychological_appeal", isStr);
           ("critical_questions", listOf isStr);
           ("verification_steps", listOf isStr) ].

Definition recommendationsSchema : value -> bool :=
  record [ ("immediate_action", isStr);
           ("further_research", listOf isStr);
           ("share_decision", isEnum ["AVOID_SHARING"; "SHARE_WITH_CONTEXT"]);
           ("learning_opportunity", isStr) ].

Definition metricsSchema : value -> bool :=
  record [ ("analysis_confidence", isInt 0 100);
           ("data_completeness", isInt 0 100);
           ("context_availability", isEnum ["PARTIAL"; "FULL"; "NONE"]) ].

(** The timestamp is whatever string the clock gives; its ISO-8601 form
    is the clock's matter. *)
Definition metadataSchema : value -> bool :=
  record [ ("analysis_timestamp", isStr); ("model_used", isStr);
           ("content_length", isCount);
           ("source_type", isEnum ["url"; "text"]) ].

Definition ReportSchema : value -> bool :=
  record [ ("analysis_summary", summarySchema);
           ("detected_tactics", listOf tacticSchema);
           ("cognitive_biases", listOf biasSchema);
           ("fact_check_flags", listOf flagSchema);
           ("educational_insights", insightsSchema);
           ("recommendations", recommendationsSchema);
           ("confidence_metrics", metricsSchema);
           ("metadata", metadataSchema) ].

(** *** Reachability of the candidates, each probed in its turn *)

Section Reachability.

Variable network : list Request -> Request -> FetchOutcome.

(** The probe of [url], made after the requests [history], returns a
    success status. *)
Definition reachable (history : list Request) (url : jsstring) : bool :=
  match network history (probeRequest url) with
  | Responds r => ok r
  | Rejects _ => false
  end.

(** Every candidate of [urls], probed in list order after [history],
    is unreachable. *)
Fixpoint allUnreachable (history : list Request) (urls : list jsstring) : Prop :=
  match urls with
  | [] => True
  | u :: rest =>
      reachable history u = false /\
      allUnreachable (history ++ [probeRequest u])%list rest
  end.

(** The live POST of [content] to [base], made after [history], fails: the
    [fetch] rejects, or the response has a non-success status. *)
Definition livePostFails (history : list Request) (base content : jsstring) : Prop :=
  match network history (analyzeRequest base content) with
  | Rejects _ => True
  | Responds r => ok r = false
  end.

End Reachability.

End Spec.

(* ================================================================== *)
(** ** Sample environments *)
(* ================================================================== *)

Module Sample.

(** The four candidates of [backendUrls]. *)
Definition render : jsstring := js "https://your-render-app.onrender.com".
Definition railway : jsstring := js "https://your-railway-app.up.railway.app".
Definition localhost : jsstring := js "http://localhost:8000".
Definition cloudRun : jsstring :=
  js "https://mindful-compass-api-1082426526892.us-central1.run.app".

(** A stand-in for the Unicode table: no character outside ASCII has an
    upper-case form of its own. *)
Definition upperId (c : codeUnit) : jsstring := [c].

Definition clock (_ : list Event) : jsstring := js "2024-01-01T00:00:00.000Z".

(** A renderer that accepts every value. *)
Definition rendering (_ : value) : option Error := None.

Definition ToString (_ : value) : jsstring := js "[object Object]".

Definition nullPropertyError : Error :=
  mkError (js "Cannot read properties of null (reading 'detail')").

(** Every host answers 200 with a body that is not JSON (an HTML page). *)
Definition htmlNetwork (_ : list Request) (_ : Request) : FetchOutcome :=
  Responds (mkResponse 200 (js "OK")
              (JsonRejects (mkError (js "Unexpected token < in JSON at position 0")))).

(** Only the local development server answers the probe; its [/analyze]
    answers 500. *)
Definition localNetwork (_ : list Request) (req : Request) : FetchOutcome :=
  if JsString.eqb (url req) (js "http://localhost:8000/")
  then Responds (mkResponse 200 (js "OK") (JsonResolves (Obj [])))
  else if JsString.eqb (url req) (js "http://localhost:8000/analyze")
  then Responds (mkResponse 500 (js "Internal Server Error")
                   (JsonResolves (Obj [("detail"%string, Str (js "boom"))])))
  else Rejects (mkError (js "Failed to fetch")).

(** No host answers. *)
Definition deadNetwork (_ : list Request) (_ : Request) : FetchOutcome :=
  Rejects (mkError (js "Failed to fetch")).

End Sample.

(* ================================================================== *)
(** ** The other listeners of the two scripts *)
(* ================================================================== *)

Definition set_contentInput (v : jsstring) (p : Page) : Page :=
  mkPage (activeBackendUrl p) v (statusText_textContent p)
         (statusIcon_className p) (errorMessage_textContent p)
         (resultsSection_hidden p) (errorSection_hidden p)
         (loadingOverlay_hidden p) (analyzeBtn_loading p) (events p).

Section Listeners.

Local Open Scope js_scope.

Variable unicodeUpper : codeUnit -> jsstring.
Variable network : list Request -> Request -> FetchOutcome.
Variable clock : list Event -> jsstring.
Variable rendering : value -> option Error.

(** The listener of [DOMContentLoaded]. *)
Definition onDOMContentLoaded : M unit :=
  checkBackendConnection network backendUrls.

(** The listener of the form's [submit] event ([preventDefault] leaves
    the page state alone). *)
Definition onSubmit : M unit :=
  analyzeContent unicodeUpper network clock rendering.

(** The listener of [newAnalysisBtn]: the results are hidden and the
    input is cleared (and focused). *)
Definition newAnalysisBtnClick : M unit :=
  modify (set_resultsHidden true) ;;
  modify (set_contentInput []).

(** The listener of [retryBtn]. *)
Definition retryBtnClick : M unit :=
  modify (set_errorHidden true) ;;
  analyzeContent unicodeUpper network clock rendering.

End Listeners.

(** The parts of the page a listener may be expected to leave alone. *)
Module Frame.

(** The input, the error message and the three visibility flags. *)
Definition sameForm (p q : Page) : Prop :=
  contentInput_value q = contentInput_value p /\
  errorMessage_textContent q = errorMessage_textContent p /\
  resultsSection_hidden q = resultsSection_hidden p /\
  errorSection_hidden q = errorSection_hidden p /\
  loadingOverlay_hidden q = loadingOverlay_hidden p /\
  analyzeBtn_loading q = analyzeBtn_loading p.

(** Nothing was rendered and no notice was shown. *)
Definition sameOutput (p q : Page) : Prop :=
  displayed (events q) = displayed (events p) /\
  notifications (events q) = notifications (events p).

(** The endpoint and the status signal. *)
Definition sameBackend (p q : Page) : Prop :=
  activeBackendUrl q = activeBackendUrl p /\
  statusText_textContent q = statusText_textContent p /\
  statusIcon_className q = statusIcon_className p.

End Frame.

Module ScriptJsListeners.

Local Open Scope js_scope.

(** [newAnalysisBtn] of [script.js]. *)
Definition newAnalysisBtnClick : M unit :=
  modify (set_resultsHidden true) ;;
  modify (set_contentInput []).

(** [retryBtn] of [script.js]: the error is hidden, nothing is sent. *)
Definition retryBtnClick : M unit :=
  modify (set_errorHidden true).

End ScriptJsListeners.

(* ================================================================== *)
(** ** The renderer of the enhanced script ([displayReport]) *)
(* ================================================================== *)

(** The body of [displayReport] as the sequence of its writes to the page,
    ending normally or in an exception. Every element the function looks
    up is taken to exist. The conversions of JavaScript that the function
    applies to what it finds in [data] are written out for the values a
    report is made of; for the others (objects and arrays turned into
    strings, numbers beyond 2^53, strings compared with a number) they are
    parameters. *)
Module Render.

Local Open Scope string_scope.
Local Open Scope list_scope.

Inductive Write : Type :=
| TextContent (id : string) (text : jsstring)
| BadgeTextContent (text : jsstring)  (* the [.decision-badge] of [shareDecision] *)
| ClassName (id : string) (name : jsstring)
| InnerHTML (id : string) (html : jsstring)
| StyleWidth (id : string) (width : jsstring)
| ClassListAdd (id : string) (token : jsstring)
| ClassListRemove (id : string) (token : jsstring)
| AppendDiv (parent : string) (className html : jsstring)
| AppendLi (parent : string) (text : jsstring).

(** The writes made so far, and how the computation ends. *)
Definition W (A : Type) : Type := (list Write * Completion A)%type.

Definition ret {A} (a : A) : W A := ([], Normal a).

Definition throw {A} (e : Error) : W A := ([], Throw e).

Definition bind {A B} (c : W A) (k : A -> W B) : W B :=
  match c with
  | (w, Normal a) => let (w', r) := k a in (w ++ w', r)
  | (w, Throw e) => (w, Throw e)
  end.

Definition write (w : Write) : W unit := ([w], Normal tt).

Definition writes {A} (c : W A) : list Write := fst c.

(** The element a write goes to. *)
Definition target (w : Write) : string :=
  match w with
  | TextContent id _ | ClassName id _ | InnerHTML id _ | StyleWidth id _
  | ClassListAdd id _ | ClassListRemove id _ => id
  | BadgeTextContent _ => "shareDecision .decision-badge"
  | AppendDiv parent _ _ | AppendLi parent _ => parent
  end.

(** The writes that go to one element, in order. *)
Definition writesTo (id : string) (ws : list Write) : list Write :=
  filter (fun w => String.eqb (target w) id) ws.

(** The properties of [data] that [displayReport] reads. *)
Definition groups : list string :=
  [ "analysis_summary"; "detected_tactics"; "cognitive_biases";
    "educational_insights"; "fact_check_flags"; "recommendations";
    "confidence_metrics" ].

(** The properties of an object with [key] set to [v]. *)
Definition setProp (key : string) (v : value) (props : list (string * value))
  : list (string * value) :=
  (key, v) :: remove key props.

Declare Scope render_scope.
Delimit Scope render_scope with render.
Notation "x <- c ;; k" := (bind c (fun x => k))
  (at level 61, c at next level, right associativity) : render_scope.
Notation "c ;; k" := (bind c (fun _ => k))
  (at level 61, right associativity) : render_scope.
Local Open Scope render_scope.

(** A value in a condition. *)
Definition ToBoolean (v : value) : bool :=
  match v with
  | Null => false
  | Bool b => b
  | Num n => negb (n =? 0)%Z
  | Str s => truthy s
  | Arr _ | Obj _ => true
  end.

(** [x || d], where [x] may be [undefined]. *)
Definition orElse (x : option value) (d : value) : value :=
  match x with
  | Some v => if ToBoolean v then v else d
  | None => d
  end.

Definition asciiLower (c : codeUnit) : codeUnit :=
  if ((65 <=? c) && (c <=? 90))%N then (c + 32)%N else c.

(** [s.replace(from, to)] for one-character strings: the first occurrence
    only. *)
Fixpoint replaceFirst (from to : codeUnit) (s : jsstring) : jsstring :=
  match s with
  | [] => []
  | c :: t => if (c =? from)%N then to :: t else c :: replaceFirst from to t
  end.

(** The quotation mark, and a literal given as its pieces between
    quotation marks. *)
Definition dq : jsstring := [34%N].

Fixpoint quoted (pieces : list string) : jsstring :=
  match pieces with
  | [] => []
  | [s] => js s
  | s :: rest => js s ++ dq ++ quoted rest
  end.

(** The literal parts of the template of a tactic item, between its five substitutions. *)
Definition tacticHtml0 : jsstring :=
  quoted ["
                <div class="; "tactic-header"; ">
                    <span class="; "tactic-name"; ">"].

Definition tacticHtml1 : jsstring :=
  quoted ["</span>
                    <span class="; "manipulation-type "].

Definition tacticHtml2 : jsstring :=
  quoted [""; ">"].

Definition tacticHtml3 : jsstring :=
  quoted ["</span>
                </div>
                <p class="; "tactic-description"; ">"].

Definition tacticHtml4 : jsstring :=
  quoted ["</p>
                <div class="; "tactic-example"; ">
                    <p>"].

Definition tacticHtml5 : jsstring :=
  quoted ["</p>
                </div>
            "].

(** The literal parts of the template of a bias item. *)
Definition biasHtml0 : jsstring :=
  quoted ["
                <div class="; "bias-header"; ">
                    <h4>"].

Definition biasHtml1 : jsstring :=
  quoted ["</h4>
                    <p>"].

Definition biasHtml2 : jsstring :=
  quoted ["</p>
                </div>
                <p><strong>How it's exploited:</strong> "].

Definition biasHtml3 : jsstring :=
  quoted ["</p>
                <p class="; "resistance-tip"; "><strong>Tip:</strong> "].

Definition biasHtml4 : jsstring :=
  quoted ["</p>
            "].

(** The literal parts of the template of a fact-check flag. *)
Definition flagHtml0 : jsstring :=
  quoted ["
                <p class="; "flag-claim"; ">Claim: "; ""].

Definition flagHtml1 : jsstring :=
  quoted [""; "</p>
                <p class="; "flag-reason"; "><strong>Reason:</strong> "].

Definition flagHtml2 : jsstring :=
  quoted ["</p>
                <p class="; "flag-reason"; "><strong>Suggestion:</strong> "].

Definition flagHtml3 : jsstring :=
  quoted ["</p>
            "].

Definition noTacticsHtml : jsstring :=
  quoted ["<p class="; "text-center"; ">No specific manipulation tactics detected.</p>"].

Definition noBiasesHtml : jsstring :=
  quoted ["<p class="; "text-center"; ">No specific cognitive biases targeted.</p>"].

Section Body.

(** [s.toLowerCase()] for a string with a code unit outside ASCII. *)
Variable unicodeLower : jsstring -> jsstring.

(** [String(v)] for an array, an object, or a number beyond 2^53. *)
Variable ToStringOther : value -> Completion jsstring.

(** [l > 0] for a [length] property that is a string, an array or an
    object. *)
Variable lengthIsPositive : value -> Completion bool.

(** The [TypeError]s of a property read on [null] and of a call of
    something that is no function. *)
Variable readOfNull : string -> Error.
Variable notCallable : string -> value -> Error.

Definition toLowerCase (s : jsstring) : jsstring :=
  if forallb (fun c => (c <? 128)%N) s then List.map asciiLower s
  else unicodeLower s.

(** The string a value becomes in a template literal or in an assignment
    to a string property. *)
Definition ToString (v : value) : W jsstring :=
  match v with
  | Str s => ret s
  | Null => ret (js "null")
  | Bool true => ret (js "true")
  | Bool false => ret (js "false")
  | Num n =>
      if (Z.abs n <=? 2 ^ 53)%Z then ret (numberToString n)
      else ([], ToStringOther v)
  | Arr _ | Obj _ => ([], ToStringOther v)
  end.

(** [document.getElementById(id).textContent = v]: [null] clears the text. *)
Definition setTextContent (id : string) (v : value) : W unit :=
  text <- match v with Null => ret [] | _ => ToString v end ;;
  write (TextContent id text).

(** [v.key], for a [v] that is not [undefined]. *)
Definition property (key : string) (v : value) : W (option value) :=
  match v with
  | Null => throw (readOfNull key)
  | _ => ret (get key v)
  end.

Definition safeText (text : option value) : value :=
  orElse text (Str (js "Not provided")).

(** [level ? level.toLowerCase().replace('_', '-') : ''] *)
Definition getRiskClass (level : option value) : W jsstring :=
  match level with
  | None => ret []
  | Some v =>
      if ToBoolean v then
        match v with
        | Str s => ret (replaceFirst 95%N 45%N (toLowerCase s))
        | _ => throw (notCallable "toLowerCase" v)
        end
      else ret []
  end.

Definition getRatingClass (rating : option value) : W jsstring :=
  match rating with
  | None => ret []
  | Some v =>
      if ToBoolean v then
        match v with
        | Str s => ret (replaceFirst 95%N 45%N (toLowerCase s))
        | _ => throw (notCallable "toLowerCase" v)
        end
      else ret []
  end.

(** [x && x.length > 0] *)
Definition hasItems (x : option value) : W bool :=
  match x with
  | None => ret false
  | Some v =>
      if ToBoolean v then
        match v with
        | Arr items => ret (match items with [] => false | _ :: _ => true end)
        | Str _ => ret true
        | Obj props =>
            match assoc "length" props with
            | None => ret false
            | Some (Num n) => ret (0 <? n)%Z
            | Some Null => ret false
            | Some (Bool b) => ret b
            | Some l => ([], lengthIsPositive l)
            end
        | _ => ret false
        end
      else ret false
  end.

Fixpoint forEachItem (f : value -> W unit) (items : list value) : W unit :=
  match items with
  | [] => ret tt
  | item :: rest => f item ;; forEachItem f rest
  end.

(** [x.forEach(f)], reached only when [x && x.length > 0] holds. *)
Definition forEach (x : option value) (f : value -> W unit) : W unit :=
  match x with
  | Some (Arr items) => forEachItem f items
  | Some v => throw (notCallable "forEach" v)
  | None => throw (readOfNull "forEach")
  end.

(** A substitution [${safeText(item.key)}]. *)
Definition textOf (key : string) (item : value) : W jsstring :=
  x <- property key item ;;
  ToString (safeText x).

Definition tacticItem (tactic : value) : W unit :=
  name <- textOf "tactic_name" tactic ;;
  typeClass <- (x <- property "manipulation_type" tactic ;; getRatingClass x) ;;
  type <- textOf "manipulation_type" tactic ;;
  description <- textOf "description" tactic ;;
  example <- textOf "example_from_content" tactic ;;
  write (AppendDiv "detectedTactics" (js "tactic-item")
           (tacticHtml0 ++ name ++ tacticHtml1 ++ typeClass ++ tacticHtml2
            ++ type ++ tacticHtml3 ++ description ++ tacticHtml4 ++ example
            ++ tacticHtml5)).

Definition biasItem (bias : value) : W unit :=
  name <- textOf "bias_name" bias ;;
  explanation <- textOf "explanation" bias ;;
  exploited <- textOf "how_its_exploited" bias ;;
  tip <- textOf "resistance_tip" bias ;;
  write (AppendDiv "cognitiveBiases" (js "bias-item")
           (biasHtml0 ++ name ++ biasHtml1 ++ explanation ++ biasHtml2
            ++ exploited ++ biasHtml3 ++ tip ++ biasHtml4)).

Definition flagItem (flag : value) : W unit :=
  claim <- textOf "claim" flag ;;
  reason <- textOf "flag_reason" flag ;;
  suggestion <- textOf "verification_suggestion" flag ;;
  write (AppendDiv "factCheckFlags" (js "flag-item")
           (flagHtml0 ++ claim ++ flagHtml1 ++ reason ++ flagHtml2
            ++ suggestion ++ flagHtml3)).

(** The list [owner.key] of plain items: the list element is emptied and
    gets one [li] per item; there is no placeholder for an empty list. *)
Definition plainList (id key : string) (owner : value) : W unit :=
  write (InnerHTML id []) ;;
  x <- property key owner ;;
  some <- hasItems x ;;
  if some
  then forEach x (fun item =>
         text <- match item with Null => ret [] | _ => ToString item end ;;
         write (AppendLi id text))
  else ret tt.

Definition summaryCard (data : value) : W unit :=
  x <- property "analysis_summary" data ;;
  let summary := orElse x (Obj []) in
  level <- property "risk_level" summary ;;
  setTextContent "riskLevelText" (orElse level (Str (js "UNKNOWN"))) ;;
  level <- property "risk_level" summary ;;
  cls <- getRiskClass level ;;
  write (ClassName "riskLevel" (js "risk-level " ++ cls)) ;;
  rating <- property "credibility_rating" summary ;;
  setTextContent "credibilityRating" (orElse rating (Str (js "UNKNOWN"))) ;;
  rating <- property "credibility_rating" summary ;;
  cls <- getRatingClass rating ;;
  write (ClassName "credibilityRating" (js "rating-value " ++ cls)) ;;
  concern <- property "primary_concern" summary ;;
  setTextContent "primaryConcern" (safeText concern).

Definition detectedTactics (data : value) : W unit :=
  write (InnerHTML "detectedTactics" []) ;;
  x <- property "detected_tactics" data ;;
  some <- hasItems x ;;
  if some then forEach x tacticItem
  else write (InnerHTML "detectedTactics" noTacticsHtml).

Definition cognitiveBiases (data : value) : W unit :=
  write (InnerHTML "cognitiveBiases" []) ;;
  x <- property "cognitive_biases" data ;;
  some <- hasItems x ;;
  if some then forEach x biasItem
  else write (InnerHTML "cognitiveBiases" noBiasesHtml).

Definition educationalInsights (data : value) : W unit :=
  x <- property "educational_insights" data ;;
  let insights := orElse x (Obj []) in
  why <- property "why_convincing" insights ;;
  setTextContent "whyConvincing" (safeText why) ;;
  audience <- property "target_audience" insights ;;
  setTextContent "targetAudience" (safeText audience) ;;
  appeal <- property "psychological_appeal" insights ;;
  setTextContent "psychologicalAppeal" (safeText appeal) ;;
  plainList "criticalQuestions" "critical_questions" insights ;;
  plainList "verificationSteps" "verification_steps" insights.

Definition factCheckFlags (data : value) : W unit :=
  write (InnerHTML "factCheckFlags" []) ;;
  x <- property "fact_check_flags" data ;;
  some <- hasItems x ;;
  if some
  then write (ClassListRemove "factCheckSection" (js "hidden")) ;;
       forEach x flagItem
  else write (ClassListAdd "factCheckSection" (js "hidden")).

Definition recommendations (data : value) : W unit :=
  x <- property "recommendations" data ;;
  let recs := orElse x (Obj []) in
  action <- property "immediate_action" recs ;;
  setTextContent "immediateAction" (safeText action) ;;
  decision <- property "share_decision" recs ;;
  cls <- getRatingClass decision ;;
  write (ClassName "shareDecision" (js "share-decision " ++ cls)) ;;
  decision <- property "share_decision" recs ;;
  text <- ToString (safeText decision) ;;
  write (BadgeTextContent text) ;;
  learning <- property "learning_opportunity" recs ;;
  setTextContent "learningOpportunity" (safeText learning) ;;
  plainList "furtherResearch" "further_research" recs.

Definition confidenceMetrics (data : value) : W unit :=
  x <- property "confidence_metrics" data ;;
  let metrics := orElse x (Obj []) in
  confidence <- property "analysis_confidence" metrics ;;
  let analysisConf := orElse confidence (Num 0) in
  completeness <- property "data_completeness" metrics ;;
  let dataComp := orElse completeness (Num 0) in
  text <- ToString analysisConf ;;
  write (StyleWidth "analysisConfidenceBar" (text ++ js "%")) ;;
  text <- ToString analysisConf ;;
  write (TextContent "analysisConfidenceText" (text ++ js "%")) ;;
  text <- ToString dataComp ;;
  write (StyleWidth "dataCompletenessBar" (text ++ js "%")) ;;
  text <- ToString dataComp ;;
  write (TextContent "dataCompletenessText" (text ++ js "%")) ;;
  context <- property "context_availability" metrics ;;
  setTextContent "contextAvailability" (orElse context (Str (js "UNKNOWN"))) ;;
  context <- property "context_availability" metrics ;;
  cls <- getRatingClass context ;;
  write (ClassName "contextAvailability" (js "context-badge " ++ cls)).

(** The statements of [displayReport(data)] after the results section is
    shown and scrolled to. *)
Definition displayReportBody (data : value) : W unit :=
  summaryCard data ;;
  detectedTactics data ;;
  cognitiveBiases data ;;
  educationalInsights data ;;
  factCheckFlags data ;;
  recommendations data ;;
  confidenceMetrics data.

(** The renderer as [analyzeContent] sees it: the exception, if any. *)
Definition rendering (data : value) : option Error :=
  match snd (displayReportBody data) with
  | Throw e => Some e
  | Normal _ => None
  end.

End Body.

End Render.

(* ================================================================== *)
(** ** The renderer of [script.js] ([displayReport]) *)
(* ================================================================== *)

(** The older [displayReport]: the same lists and templates, but the four
    groups are read without a default, so that a property may be read on
    [undefined], and a text may be set to [undefined]. *)
Module RenderLegacy.

Import Render.
Local Open Scope string_scope.
Local Open Scope list_scope.
Local Open Scope render_scope.

Section Body.

Variable unicodeLower : jsstring -> jsstring.
Variable ToStringOther : value -> Completion jsstring.
Variable lengthIsPositive : value -> Completion bool.
Variable readOfNull : string -> Error.
Variable readOfUndefined : string -> Error.
Variable notCallable : string -> value -> Error.

(** [x.key], where [x] may be [undefined]. *)
Definition propertyOf (key : string) (x : option value) : W (option value) :=
  match x with
  | None => throw (readOfUndefined key)
  | Some v => property readOfNull key v
  end.

(** [document.getElementById(id).textContent = x]: [undefined] and [null]
    clear the text. *)
Definition setTextContentOf (id : string) (x : option value) : W unit :=
  text <- match x with
          | None | Some Null => ret []
          | Some v => ToString ToStringOther v
          end ;;
  write (TextContent id text).

(** A substitution [${x}] of a template literal. *)
Definition substitution (x : option value) : W jsstring :=
  match x with
  | None => ret (js "undefined")
  | Some v => ToString ToStringOther v
  end.

Definition plainListOf (id key : string) (owner : option value) : W unit :=
  write (InnerHTML id []) ;;
  x <- propertyOf key owner ;;
  some <- hasItems lengthIsPositive x ;;
  if some
  then forEach readOfNull notCallable x (fun item =>
         text <- match item with
                 | Null => ret []
                 | _ => ToString ToStringOther item
                 end ;;
         write (AppendLi id text))
  else ret tt.

Definition summaryCard (data : value) : W unit :=
  summary <- property readOfNull "analysis_summary" data ;;
  level <- propertyOf "risk_level" summary ;;
  setTextContentOf "riskLevelText" level ;;
  level <- propertyOf "risk_level" summary ;;
  cls <- getRiskClass unicodeLower notCallable level ;;
  write (ClassName "riskLevel" (js "risk-level " ++ cls)) ;;
  rating <- propertyOf "credibility_rating" summary ;;
  setTextContentOf "credibilityRating" rating ;;
  rating <- propertyOf "credibility_rating" summary ;;
  cls <- getRatingClass unicodeLower notCallable rating ;;
  write (ClassName "credibilityRating" (js "rating-value " ++ cls)) ;;
  concern <- propertyOf "primary_concern" summary ;;
  setTextContent ToStringOther "primaryConcern" (safeText concern).

Definition educationalInsights (data : value) : W unit :=
  insights <- property readOfNull "educational_insights" data ;;
  why <- propertyOf "why_convincing" insights ;;
  setTextContent ToStringOther "whyConvincing" (safeText why) ;;
  audience <- propertyOf "target_audience" insights ;;
  setTextContent ToStringOther "targetAudience" (safeText audience) ;;
  appeal <- propertyOf "psychological_appeal" insights ;;
  setTextContent ToStringOther "psychologicalAppeal" (safeText appeal) ;;
  plainListOf "criticalQuestions" "critical_questions" insights ;;
  plainListOf "verificationSteps" "verification_steps" insights.

Definition recommendations (data : value) : W unit :=
  recs <- property readOfNull "recommendations" data ;;
  action <- propertyOf "immediate_action" recs ;;
  setTextContent ToStringOther "immediateAction" (safeText action) ;;
  decision <- propertyOf "share_decision" recs ;;
  cls <- getRatingClass unicodeLower notCallable decision ;;
  write (ClassName "shareDecision" (js "share-decision " ++ cls)) ;;
  decision <- propertyOf "share_decision" recs ;;
  text <- ToString ToStringOther (safeText decision) ;;
  write (BadgeTextContent text) ;;
  learning <- propertyOf "learning_opportunity" recs ;;
  setTextContent ToStringOther "learningOpportunity" (safeText learning) ;;
  plainListOf "furtherResearch" "further_research" recs.

Definition confidenceMetrics (data : value) : W unit :=
  metrics <- property readOfNull "confidence_metrics" data ;;
  confidence <- propertyOf "analysis_confidence" metrics ;;
  text <- substitution confidence ;;
  write (StyleWidth "analysisConfidenceBar" (text ++ js "%")) ;;
  confidence <- propertyOf "analysis_confidence" metrics ;;
  text <- substitution confidence ;;
  write (TextContent "analysisConfidenceText" (text ++ js "%")) ;;
  completeness <- propertyOf "data_completeness" metrics ;;
  text <- substitution completeness ;;
  write (StyleWidth "dataCompletenessBar" (text ++ js "%")) ;;
  completeness <- propertyOf "data_completeness" metrics ;;
  text <- substitution completeness ;;
  write (TextContent "dataCompletenessText" (text ++ js "%")) ;;
  context <- propertyOf "context_availability" metrics ;;
  setTextContentOf "contextAvailability" context ;;
  context <- propertyOf "context_availability" metrics ;;
  cls <- getRatingClass unicodeLower notCallable context ;;
  write (ClassName "contextAvailability" (js "context-badge " ++ cls)).

(** The statements of the older [displayReport(data)] after the results
    section is shown and scrolled to. *)
Definition displayReportBody (data : value) : W unit :=
  summaryCard data ;;
  detectedTactics unicodeLower ToStringOther lengthIsPositive readOfNull
    notCallable data ;;
  cognitiveBiases ToStringOther lengthIsPositive readOfNull notCallable data ;;
  educationalInsights data ;;
  factCheckFlags ToStringOther lengthIsPositive readOfNull notCallable data ;;
  recommendations data ;;
  confidenceMetrics data.

(** The renderer as the submit handler sees it: the exception, if any. *)
Definition rendering (data : value) : option Error :=
  match snd (displayReportBody data) with
  | Throw e => Some e
  | Normal _ => None
  end.

End Body.

End RenderLegacy.

(** Stand-ins for the parameters of the renderer, and two more networks. *)
Module SampleRender.

Definition unicodeLower (s : jsstring) : jsstring := s.

Definition ToStringOther (_ : value) : Completion jsstring :=
  Normal (js "[object Object]").

Definition lengthIsPositive (_ : value) : Completion bool := Normal false.

Definition readOfNull (key : string) : Error :=
  mkError (js "Cannot read properties of null (reading '" ++ js key ++ js "')").

Definition notCallable (name : string) (_ : value) : Error :=
  mkError (js name ++ js " is not a function").

Definition readOfUndefined (key : string) : Error :=
  mkError (js "Cannot read properties of undefined (reading '" ++ js key
           ++ js "')").

Definition rendering : value -> option Error :=
  Render.rendering unicodeLower ToStringOther lengthIsPositive readOfNull
    notCallable.

(** Every host answers 200 with the JSON body [null]. *)
Definition nullNetwork (_ : list Request) (_ : Request) : FetchOutcome :=
  Responds (mkResponse 200 (js "OK") (JsonResolves Null)).

(** Every host answers 200 with the JSON body [{}]. *)
Definition emptyObjectNetwork (_ : list Request) (_ : Request) : FetchOutcome :=
  Responds (mkResponse 200 (js "OK") (JsonResolves (Obj []))).

End SampleRender.

(* ================================================================== *)
(** ** Facts about string search and the two patterns *)
(* ================================================================== *)

Section SearchFacts.

Lemma anyPosition_true (m : jsstring -> bool) (s : jsstring) :
  anyPosition m s = true <->
  exists pre suf, s = pre ++ suf /\ m suf = true.
Proof.
  induction s as [|c t IH]; simpl.
  - rewrite orb_false_r. split.
    + intros H. exists [], []. auto.
    + intros (pre & suf & E & H).
      symmetry in E. apply app_eq_nil in E. destruct E; subst. exact H.
  - rewrite orb_true_iff, IH. split.
    + intros [H | (pre & suf & E & H)].
      * exists [], (c :: t). auto.
      * exists (c :: pre), suf. subst. auto.
    + intros (pre & suf & E & H). destruct pre as [|c' pre]; simpl in E.
      * left. subst. exact H.
      * right. injection E as -> ->. eauto.
Qed.

Lemma startsWith_true (pat s : jsstring) :
  startsWith pat s = true <-> exists rest, s = pat ++ rest.
Proof.
  revert s. induction pat as [|p pat IH]; intros s; simpl.
  - split; eauto.
  - destruct s as [|c s].
    + split; [discriminate | intros (rest & E); discriminate].
    + rewrite andb_true_iff, N.eqb_eq, IH. split.
      * intros (-> & rest & ->). eauto.
      * intros (rest & E). injection E as -> ->. eauto.
Qed.

Lemma includes_bang (content : jsstring) :
  includes (js "!") content = true <-> Spec.ContainsBang content.
Proof.
  unfold includes, Spec.ContainsBang. rewrite anyPosition_true. split.
  - intros (pre & suf & -> & H). apply startsWith_true in H.
    destruct H as (rest & ->). apply in_or_app. right. left. reflexivity.
  - intros H. apply in_split in H. destruct H as (l1 & l2 & ->).
    exists l1, (33%N :: l2). split; [reflexivity|].
    apply startsWith_true. exists l2. reflexivity.
Qed.

Lemma matchAtLeast_true (n : nat) (cls : codeUnit -> bool) (s : jsstring) :
  RegExp.matchAtLeast n cls s = true <->
  exists run rest, s = run ++ rest /\ List.length run = n /\
                   Forall (fun c => cls c = true) run.
Proof.
  revert s. induction n as [|n IH]; intros s; simpl.
  - split; [intros _; exists [], s; auto | reflexivity].
  - destruct s as [|c t].
    + split; [discriminate|].
      intros (run & rest & E & L & _). destruct run; discriminate.
    + rewrite andb_true_iff, IH. split.
      * intros (Hc & run & rest & -> & L & F).
        exists (c :: run), rest. simpl. auto.
      * intros (run & rest & E & L & F).
        destruct run as [|c' run]; [discriminate|].
        injection E as -> ->. injection L as L.
        inversion F; subst. eauto 6.
Qed.

Lemma classAZ_true (c : codeUnit) :
  RegExp.classAZ c = true <-> (65 <= c <= 90)%N.
Proof.
  unfold RegExp.classAZ. rewrite andb_true_iff, !N.leb_le. reflexivity.
Qed.

Lemma hasAllCaps_true (content : jsstring) :
  hasAllCaps content = true <-> Spec.ContainsCapsRun content.
Proof.
  unfold hasAllCaps, RegExp.testAtLeast, Spec.ContainsCapsRun.
  rewrite anyPosition_true. split.
  - intros (pre & suf & -> & H). apply matchAtLeast_true in H.
    destruct H as (run & rest & -> & L & F).
    exists pre, run, rest. repeat split; try lia.
    eapply Forall_impl; [|exact F]. intros c. apply classAZ_true.
  - intros (pre & run & post & -> & L & F).
    exists pre, (run ++ post). split; [reflexivity|].
    apply matchAtLeast_true.
    exists (firstn 4 run), (skipn 4 run ++ post). repeat split.
    + rewrite app_assoc, firstn_skipn. reflexivity.
    + rewrite length_firstn. lia.
    + rewrite <- (firstn_skipn 4 run) in F. apply Forall_app in F.
      destruct F as [F _]. eapply Forall_impl; [|exact F].
      intros c. apply classAZ_true.
Qed.

End SearchFacts.

Section CaseFolding.

Variable unicodeUpper : codeUnit -> jsstring.

Lemma Canonicalize_lower (p : codeUnit) :
  (97 <= p <= 122)%N -> RegExp.Canonicalize unicodeUpper p = (p - 32)%N.
Proof.
  intros H. unfold RegExp.Canonicalize, RegExp.toUpperCase1.
  destruct (N.ltb_spec p 128); [|lia].
  destruct (N.leb_spec 97 p); [|lia].
  destruct (N.leb_spec p 122); [|lia]. simpl.
  destruct (N.leb_spec 128 p); [lia|]. reflexivity.
Qed.

Lemma Canonicalize_nonAscii (c : codeUnit) :
  (128 <= c)%N -> (128 <= RegExp.Canonicalize unicodeUpper c)%N.
Proof.
  intros H. unfold RegExp.Canonicalize, RegExp.toUpperCase1.
  destruct (N.ltb_spec c 128); [lia|].
  destruct (unicodeUpper c) as [|cu [|? ?]]; try exact H.
  destruct (N.leb_spec 128 c); [|lia]. simpl.
  destruct (N.ltb_spec cu 128); lia.
Qed.

Lemma Canonicalize_sameLetter (p c : codeUnit) :
  (97 <= p <= 122)%N ->
  (RegExp.Canonicalize unicodeUpper p =? RegExp.Canonicalize unicodeUpper c)%N = true
  <-> Spec.sameLetter p c.
Proof.
  intros H. rewrite N.eqb_eq, (Canonicalize_lower H). unfold Spec.sameLetter.
  destruct (N.lt_ge_cases c 128) as [Hc | Hc].
  - unfold RegExp.Canonicalize, RegExp.toUpperCase1.
    destruct (N.ltb_spec c 128); [|lia].
    destruct (N.leb_spec 128 c); [lia|]. simpl.
    destruct (N.leb_spec 97 c); destruct (N.leb_spec c 122); simpl; lia.
  - pose proof (Canonicalize_nonAscii Hc). lia.
Qed.

Lemma matchLiteralI_true (w s : jsstring) :
  Forall (fun p => (97 <= p <= 122)%N) w ->
  RegExp.matchLiteralI unicodeUpper w s = true <->
  exists mid rest, s = mid ++ rest /\ Forall2 Spec.sameLetter w mid.
Proof.
  intros Hw. revert s. induction Hw as [|p w Hp Hw IH]; intros s; simpl.
  - split; [intros _; exists [], s; auto | reflexivity].
  - destruct s as [|c t].
    + split; [discriminate|].
      intros (mid & rest & E & F). inversion F; subst. discriminate.
    + rewrite andb_true_iff, (Canonicalize_sameLetter c Hp), IH. split.
      * intros (Hc & mid & rest & -> & F). exists (c :: mid), rest. auto.
      * intros (mid & rest & E & F). inversion F; subst.
        injection E as -> ->. eauto.
Qed.

Lemma emotionalWords_lower :
  Forall (Forall (fun p => (97 <= p <= 122)%N)) emotionalWords.
Proof.
  unfold emotionalWords, js. simpl.
  repeat (apply Forall_cons || apply Forall_nil); lia.
Qed.

Lemma hasEmotionalWords_true (content : jsstring) :
  hasEmotionalWords unicodeUpper content = true <-> Spec.ContainsTriggerWord content.
Proof.
  unfold hasEmotionalWords, RegExp.testDisjunctionI, Spec.ContainsTriggerWord.
  rewrite anyPosition_true. unfold RegExp.matchDisjunctionI.
  pose proof emotionalWords_lower as L. rewrite Forall_forall in L.
  split.
  - intros (pre & suf & -> & H). apply existsb_exists in H.
    destruct H as (w & Hin & H).
    apply (matchLiteralI_true _ (L w Hin)) in H.
    destruct H as (mid & rest & -> & F). exists w, pre, mid, rest. auto.
  - intros (w & pre & mid & post & Hin & -> & F).
    exists pre, (mid ++ post). split; [reflexivity|].
    apply existsb_exists. exists w. split; [exact Hin|].
    apply (matchLiteralI_true _ (L w Hin)). eauto.
Qed.

End CaseFolding.

(* ================================================================== *)
(** ** The synthesizer *)
(* ================================================================== *)

Section SynthesizerFacts.

Local Open Scope string_scope.
Local Open Scope Z_scope.

Variable unicodeUpper : codeUnit -> jsstring.

Lemma riskScore_score (content : jsstring) :
  riskScore unicodeUpper content =
  Spec.score (hasEmotionalWords unicodeUpper content) (hasAllCaps content)
             (includes (js "!") content) (JsString.length content <? 100).
Proof.
  unfold riskScore, Spec.score.
  destruct (hasEmotionalWords unicodeUpper content), (hasAllCaps content),
    (includes (js "!") content), (JsString.length content <? 100);
    reflexivity.
Qed.

Lemma riskScore_range (content : jsstring) :
  20 <= riskScore unicodeUpper content <= 85.
Proof.
  rewrite riskScore_score. unfold Spec.score.
  destruct (hasEmotionalWords unicodeUpper content), (hasAllCaps content),
    (includes (js "!") content), (JsString.length content <? 100); lia.
Qed.

(** C3: the raw score is 30, plus 25 for a trigger word (any case), plus
    20 for a run of four or more letters A-Z, plus 10 for an exclamation
    mark, minus 10 for a content shorter than 100; the reported
    risk_score is the minimum of the raw score and 95, with no lower
    clamp. *)
Theorem risk_score_rule (now content : jsstring) :
  exists trigger caps bang short : bool,
    (trigger = true <-> Spec.ContainsTriggerWord content) /\
    (caps = true <-> Spec.ContainsCapsRun content) /\
    (bang = true <-> Spec.ContainsBang content) /\
    (short = true <-> JsString.length content < 100) /\
    riskScore unicodeUpper content = Spec.score trigger caps bang short /\
    getPath ["analysis_summary"; "risk_score"] (getDemoAnalysis unicodeUpper now content)
    = Some (Num (Z.min (riskScore unicodeUpper content) 95)).
Proof.
  exists (hasEmotionalWords unicodeUpper content), (hasAllCaps content),
    (includes (js "!") content), (JsString.length content <? 100).
  split; [apply hasEmotionalWords_true|].
  split; [apply hasAllCaps_true|].
  split; [apply includes_bang|].
  split; [apply Z.ltb_lt|].
  split; [apply riskScore_score | reflexivity].
Qed.

Lemma riskLevel_cases (content : jsstring) :
  let score := riskScore unicodeUpper content in
  riskLevel unicodeUpper content =
  if 70 <? score then js "HIGH" else if 50 <? score then js "MEDIUM" else js "LOW".
Proof.
  unfold riskLevel. cbv zeta. rewrite !Z.gtb_ltb. reflexivity.
Qed.

Lemma credibility_cases (content : jsstring) :
  credibility unicodeUpper content =
  if 50 <? riskScore unicodeUpper content then js "QUESTIONABLE" else js "RELIABLE".
Proof.
  unfold credibility. cbv zeta. rewrite !Z.gtb_ltb.
  destruct (Z.ltb_spec 70 (riskScore unicodeUpper content));
    destruct (Z.ltb_spec 50 (riskScore unicodeUpper content));
    try reflexivity; lia.
Qed.

(** C4: risk_level is HIGH above 70, MEDIUM above 50 and up to 70, LOW
    otherwise; credibility_rating is QUESTIONABLE exactly above 50 and
    RELIABLE otherwise; a score in (50,70] gives MEDIUM together with
    QUESTIONABLE. The score is the raw one. *)
Theorem risk_level_and_credibility (now content : jsstring) :
  let report := getDemoAnalysis unicodeUpper now content in
  let score := riskScore unicodeUpper content in
  let risk_level := getPath ["analysis_summary"; "risk_level"] report in
  let credibility_rating := getPath ["analysis_summary"; "credibility_rating"] report in
  (70 < score -> risk_level = Some (Str (js "HIGH"))) /\
  (50 < score <= 70 -> risk_level = Some (Str (js "MEDIUM"))) /\
  (score <= 50 -> risk_level = Some (Str (js "LOW"))) /\
  (credibility_rating = Some (Str (js "QUESTIONABLE")) <-> 50 < score) /\
  (credibility_rating = Some (Str (js "RELIABLE")) <-> score <= 50) /\
  (50 < score <= 70 ->
   risk_level = Some (Str (js "MEDIUM")) /\
   credibility_rating = Some (Str (js "QUESTIONABLE"))).
Proof.
  cbv zeta.
  change (getPath ["analysis_summary"; "risk_level"]
            (getDemoAnalysis unicodeUpper now content))
    with (Some (Str (riskLevel unicodeUpper content))).
  change (getPath ["analysis_summary"; "credibility_rating"]
            (getDemoAnalysis unicodeUpper now content))
    with (Some (Str (credibility unicodeUpper content))).
  rewrite riskLevel_cases, credibility_cases. cbv zeta.
  destruct (Z.ltb_spec 70 (riskScore unicodeUpper content));
    destruct (Z.ltb_spec 50 (riskScore unicodeUpper content));
    repeat split; intros; try reflexivity; try lia; try discriminate.
Qed.

(** C7: two calls on the same content, at whatever times, give reports
    that agree on everything but metadata.analysis_timestamp, in particular
    on risk_score, risk_level, credibility_rating and every list field;
    the timestamp is the clock reading of each call. *)
Theorem synthesizer_deterministic (content now1 now2 : jsstring) :
  let r1 := getDemoAnalysis unicodeUpper now1 content in
  let r2 := getDemoAnalysis unicodeUpper now2 content in
  Spec.withoutTimestamp r1 = Spec.withoutTimestamp r2 /\
  Forall (fun path => getPath path r1 = getPath path r2)
    [ ["analysis_summary"; "risk_score"];
      ["analysis_summary"; "risk_level"];
      ["analysis_summary"; "credibility_rating"];
      ["detected_tactics"]; ["cognitive_biases"]; ["fact_check_flags"];
      ["educational_insights"; "critical_questions"];
      ["educational_insights"; "verification_steps"];
      ["recommendations"; "further_research"] ] /\
  getPath ["metadata"; "analysis_timestamp"] r1 = Some (Str now1) /\
  getPath ["metadata"; "analysis_timestamp"] r2 = Some (Str now2).
Proof.
  cbv zeta. split; [reflexivity|]. split; [|split; reflexivity].
  repeat (apply Forall_cons; [reflexivity|]). apply Forall_nil.
Qed.

(** C8: on a trigger-word match detected_tactics is the two entries
    Emotional Manipulation and Urgency Creation, the first one quoting the
    first 100 characters of the content followed by an ellipsis, and
    fact_check_flags has one entry; otherwise detected_tactics is the single
    Demo Analysis entry and fact_check_flags is empty; cognitive_biases is
    the same two entries (FOMO, Authority Bias) for every content. *)
Theorem tactics_biases_flags (now content : jsstring) :
  let report := getDemoAnalysis unicodeUpper now content in
  (if hasEmotionalWords unicodeUpper content
   then exists t1 t2 f,
          get "detected_tactics" report = Some (Arr [t1; t2]) /\
          get "tactic_name" t1 = Some (Str (js "Emotional Manipulation")) /\
          get "tactic_name" t2 = Some (Str (js "Urgency Creation")) /\
          get "example_from_content" t1
          = Some (Str (firstn 100 content ++ js "...")%list) /\
          get "fact_check_flags" report = Some (Arr [f])
   else exists t,
          get "detected_tactics" report = Some (Arr [t]) /\
          get "tactic_name" t = Some (Str (js "Demo Analysis")) /\
          get "fact_check_flags" report = Some (Arr [])) /\
  get "cognitive_biases" report = Some (Arr fixedBiases) /\
  List.map (get "bias_name") fixedBiases
  = [ Some (Str (js "Fear of Missing Out (FOMO)"));
      Some (Str (js "Authority Bias")) ] /\
  (hasEmotionalWords unicodeUpper content = true <-> Spec.ContainsTriggerWord content).
Proof.
  cbv zeta. split; [|split; [reflexivity | split; [reflexivity|]]].
  - unfold getDemoAnalysis.
    destruct (hasEmotionalWords unicodeUpper content).
    + do 3 eexists. repeat split; reflexivity.
    + eexists. repeat split; reflexivity.
  - apply hasEmotionalWords_true.
Qed.

(** C10: the raw score is at least 20 (the only deduction is 10 from the
    base 30) and the reported risk_score lies in [20, 95]. *)
Theorem risk_score_interval (now content : jsstring) :
  20 <= riskScore unicodeUpper content /\
  exists n,
    getPath ["analysis_summary"; "risk_score"] (getDemoAnalysis unicodeUpper now content)
    = Some (Num n) /\ 20 <= n <= 95.
Proof.
  pose proof (riskScore_range content) as R. split; [lia|].
  exists (Z.min (riskScore unicodeUpper content) 95). split; [reflexivity | lia].
Qed.

(** C9: the synthesized report conforms to the Report schema; the groups
    analysis_summary, educational_insights, recommendations and
    confidence_metrics are present, and each of the six list fields is
    present as a list. *)
Theorem report_conforms_to_schema (now content : jsstring) :
  let report := getDemoAnalysis unicodeUpper now content in
  Spec.ReportSchema report = true /\
  Forall (fun group => exists props, get group report = Some (Obj props))
    [ "analysis_summary"; "educational_insights"; "recommendations";
      "confidence_metrics" ] /\
  Forall (fun path => exists items, getPath path report = Some (Arr items))
    [ ["detected_tactics"]; ["cognitive_biases"]; ["fact_check_flags"];
      ["educational_insights"; "critical_questions"];
      ["educational_insights"; "verification_steps"];
      ["recommendations"; "further_research"] ].
Proof.
  cbv zeta. split; [|split].
  - pose proof (riskScore_range content) as R.
    assert (H1 : (0 <=? Z.min (riskScore unicodeUpper content) 95) = true)
      by (apply Z.leb_le; lia).
    assert (H2 : (Z.min (riskScore unicodeUpper content) 95 <=? 100) = true)
      by (apply Z.leb_le; lia).
    assert (H3 : (0 <=? JsString.length content) = true)
      by (apply Z.leb_le; unfold JsString.length; lia).
    unfold getDemoAnalysis. rewrite riskLevel_cases, credibility_cases.
    cbv zeta. rewrite !Z.gtb_ltb.
    destruct (hasEmotionalWords unicodeUpper content), (hasURL content),
      (70 <? riskScore unicodeUpper content),
      (50 <? riskScore unicodeUpper content);
      cbv -[Z.min Z.leb JsString.length riskScore firstn app];
      rewrite H1, H2, H3; reflexivity.
  - repeat (apply Forall_cons; [eexists; reflexivity|]). apply Forall_nil.
  - repeat (apply Forall_cons; [eexists; reflexivity|]). apply Forall_nil.
Qed.

End SynthesizerFacts.

Example schema_rejects_missing_group :
  Spec.ReportSchema (Obj []) = false.
Proof. reflexivity. Qed.

(* ================================================================== *)
(** ** The resolver *)
(* ================================================================== *)

Section EventFacts.

Lemma requests_app (a b : list Event) :
  requests (a ++ b) = requests a ++ requests b.
Proof.
  induction a as [|e a IH]; simpl; [reflexivity|].
  destruct e; simpl; rewrite IH; reflexivity.
Qed.

Lemma displayed_app (a b : list Event) :
  displayed (a ++ b) = displayed a ++ displayed b.
Proof.
  induction a as [|e a IH]; simpl; [reflexivity|].
  destruct e; simpl; rewrite IH; reflexivity.
Qed.

Lemma notifications_app (a b : list Event) :
  notifications (a ++ b) = notifications a ++ notifications b.
Proof.
  induction a as [|e a IH]; simpl; [reflexivity|].
  destruct e; simpl; rewrite IH; reflexivity.
Qed.

End EventFacts.

#[local] Arguments js : simpl never.
#[local] Arguments trim : simpl never.
#[local] Arguments getDemoAnalysis : simpl never.

Ltac unfold_js :=
  unfold consoleLog, consoleError, showNotification, toISOStringNow, fetch,
    responseJson;
  unfold bind, tryCatch, tryFinally, read, modify, ret, throw, run.

Ltac events_simpl :=
  repeat (rewrite ?requests_app, ?displayed_app, ?notifications_app;
          cbn [requests displayed notifications events emit app]);
  rewrite ?app_nil_r, <- ?app_assoc.

Section ResolverFacts.

Variable network : list Request -> Request -> FetchOutcome.

Lemma probe_reachable (u : jsstring) (p : Page) :
  Spec.reachable network (requests (events p)) u = true ->
  exists p',
    probe network u p = (p', Normal true) /\
    activeBackendUrl p' = Some u /\
    statusText_textContent p' = js "Connected to backend" /\
    statusIcon_className p' = js "fas fa-circle text-success" /\
    requests (events p') = requests (events p) ++ [probeRequest u].
Proof.
  unfold Spec.reachable, probe. unfold_js. cbn [events emit].
  rewrite requests_app. cbn [requests]. rewrite app_nil_r.
  destruct (network (requests (events p)) (probeRequest u)) as [e | r];
    [discriminate|].
  intros Hok. rewrite Hok. eexists. split; [reflexivity|].
  cbn. events_simpl. repeat split; reflexivity.
Qed.

Lemma probe_unreachable (u : jsstring) (p : Page) :
  Spec.reachable network (requests (events p)) u = false ->
  exists p',
    probe network u p = (p', Normal false) /\
    activeBackendUrl p' = activeBackendUrl p /\
    statusText_textContent p' = statusText_textContent p /\
    statusIcon_className p' = statusIcon_className p /\
    requests (events p') = requests (events p) ++ [probeRequest u].
Proof.
  unfold Spec.reachable, probe. unfold_js. cbn [events emit].
  rewrite requests_app. cbn [requests]. rewrite app_nil_r.
  destruct (network (requests (events p)) (probeRequest u)) as [e | r].
  - intros _. eexists. split; [reflexivity|].
    cbn. events_simpl. repeat split; reflexivity.
  - intros Hok. rewrite Hok. eexists. split; [reflexivity|].
    cbn. events_simpl. repeat split; reflexivity.
Qed.

Lemma probeAll_unreachable (urls : list jsstring) (p : Page) :
  Spec.allUnreachable network (requests (events p)) urls ->
  let final := run (probeAll network urls) p in
  activeBackendUrl final = activeBackendUrl p /\
  statusText_textContent final = js "Backend offline - Demo mode only" /\
  statusIcon_className final = js "fas fa-circle text-error" /\
  requests (events final) = requests (events p) ++ List.map probeRequest urls.
Proof.
  revert p. induction urls as [|u rest IH]; intros p H; cbv zeta.
  - cbn [probeAll]. unfold_js. cbn. events_simpl. repeat split; reflexivity.
  - destruct H as [Hu Hrest].
    destruct (probe_unreachable u p Hu) as (p' & E & A & T & I & R).
    cbn [probeAll]. unfold run, bind. rewrite E.
    rewrite <- R in Hrest. specialize (IH p' Hrest). cbv zeta in IH.
    unfold run in IH. destruct IH as (A' & T' & I' & R').
    rewrite A', T', I', R', R, A. cbn [List.map]. rewrite <- app_assoc.
    repeat split; reflexivity.
Qed.

Lemma probeAll_first (pre : list jsstring) (u : jsstring) (post : list jsstring)
      (p : Page) :
  Spec.allUnreachable network (requests (events p)) pre ->
  Spec.reachable network (requests (events p) ++ List.map probeRequest pre) u = true ->
  let final := run (probeAll network (pre ++ u :: post)) p in
  activeBackendUrl final = Some u /\
  statusText_textContent final = js "Connected to backend" /\
  statusIcon_className final = js "fas fa-circle text-success" /\
  requests (events final)
  = requests (events p) ++ List.map probeRequest (pre ++ [u]).
Proof.
  revert p. induction pre as [|v pre IH]; intros p Hpre Hu; cbv zeta.
  - cbn [List.map] in Hu. rewrite app_nil_r in Hu.
    destruct (probe_reachable u p Hu) as (p' & E & A & T & I & R).
    cbn [app probeAll]. unfold run, bind. rewrite E. cbn [fst ret].
    unfold ret. cbn [fst]. auto.
  - destruct Hpre as [Hv Hpre].
    destruct (probe_unreachable v p Hv) as (p' & E & A & T & I & R).
    cbn [app probeAll]. unfold run, bind. rewrite E.
    rewrite <- R in Hpre.
    cbn [List.map] in Hu.
    replace (requests (events p) ++ probeRequest v :: List.map probeRequest pre)
      with (requests (events p') ++ List.map probeRequest pre) in Hu
      by (rewrite R, <- app_assoc; reflexivity).
    specialize (IH p' Hpre Hu). cbv zeta in IH. unfold run in IH.
    destruct IH as (A' & T' & I' & R').
    rewrite A', T', I', R', R. cbn [app List.map]. rewrite <- app_assoc.
    repeat split; reflexivity.
Qed.

(** C2: the candidates are probed in list order; the first one whose
    probe returns a success status becomes the active endpoint and no later
    candidate is probed; when every probe fails, no endpoint is selected
    and the status signal is offline. The resolver starts, as at page load,
    with no active endpoint. *)
Theorem resolver_first_reachable (urls : list jsstring) (p : Page) :
  activeBackendUrl p = None ->
  let final := run (checkBackendConnection network urls) p in
  let history := requests (events p) in
  (forall pre u post,
      urls = pre ++ u :: post ->
      Spec.allUnreachable network history pre ->
      Spec.reachable network (history ++ List.map probeRequest pre) u = true ->
      activeBackendUrl final = Some u /\
      requests (events final) = history ++ List.map probeRequest (pre ++ [u]) /\
      statusText_textContent final = js "Connected to backend" /\
      statusIcon_className final = js "fas fa-circle text-success") /\
  (Spec.allUnreachable network history urls ->
      activeBackendUrl final = None /\
      requests (events final) = history ++ List.map probeRequest urls /\
      statusText_textContent final = js "Backend offline - Demo mode only" /\
      statusIcon_className final = js "fas fa-circle text-error").
Proof.
  intros Hnull. cbv zeta.
  unfold checkBackendConnection.
  set (p0 := set_statusIcon (js "fas fa-circle text-warning")
               (set_statusText (js "Checking backend connection...") p)).
  assert (Erun : forall urls',
             run (modify (set_statusText (js "Checking backend connection...")) ;;
                  modify (set_statusIcon (js "fas fa-circle text-warning")) ;;
                  probeAll network urls')%js p
             = run (probeAll network urls') p0) by reflexivity.
  assert (Eev : requests (events p0) = requests (events p)) by reflexivity.
  assert (Eact : activeBackendUrl p0 = None) by exact Hnull.
  rewrite Erun. split.
  - intros pre u post -> Hpre Hu. rewrite <- Eev in Hpre, Hu |- *.
    destruct (probeAll_first pre u post p0 Hpre Hu) as (A & T & I & R).
    auto.
  - intros Hall. rewrite <- Eev in Hall |- *.
    destruct (probeAll_unreachable urls p0 Hall) as (A & T & I & R).
    rewrite A. auto.
Qed.

End ResolverFacts.

(* ================================================================== *)
(** ** The orchestrator *)
(* ================================================================== *)

Ltac unfold_handler :=
  unfold analyzeContent, liveAnalysis, demoAnalysis, displayReport,
    showError, showLoading;
  unfold_js.

(** The goal names a report shown after the events of the page; the
    renderer may or may not throw on it. *)
Ltac fallback_report rendering :=
  eexists; split;
  [ destruct (rendering _); cbn; events_simpl; reflexivity
  | split; [eexists; reflexivity|];
    split; [intros; reflexivity|];
    destruct (rendering _); cbn; events_simpl; split; reflexivity ].

Section OrchestratorFacts.

Variable unicodeUpper : codeUnit -> jsstring.
Variable network : list Request -> Request -> FetchOutcome.
Variable clock : list Event -> jsstring.
Variable rendering : value -> option Error.

(** C6: when the input is empty after trimming, [analyzeContent] makes no
    network call and hands nothing to the renderer; it shows the
    validation message and returns. *)
Theorem empty_input_is_rejected (p : Page) :
  trim (contentInput_value p) = [] ->
  let final := run (analyzeContent unicodeUpper network clock rendering) p in
  events final = events p /\
  requests (events final) = requests (events p) /\
  displayed (events final) = displayed (events p) /\
  errorMessage_textContent final = js "Please enter some content to analyze" /\
  errorSection_hidden final = false /\
  loadingOverlay_hidden final = loadingOverlay_hidden p.
Proof.
  intros H. cbv zeta. unfold_handler. cbn. rewrite H. cbn.
  repeat split; reflexivity.
Qed.

Lemma truthy_cons (s : jsstring) :
  truthy s = true -> exists c t, s = c :: t.
Proof.
  destruct s as [|c t]; [discriminate | eauto].
Qed.

(** C5: when the live POST fails (the [fetch] rejects or the status is not
    a success), the report handed to the renderer is the synthesized one
    for the same content, up to the timestamp; one request was made and the
    fallback notice is shown. The content is the trimmed input, which is
    what the POST carries. *)
Theorem live_failure_falls_back (p : Page) (base content : jsstring) :
  activeBackendUrl p = Some base -> truthy base = true ->
  content = trim (contentInput_value p) -> truthy content = true ->
  Spec.livePostFails network (requests (events p)) base content ->
  let final := run (analyzeContent unicodeUpper network clock rendering) p in
  exists report,
    displayed (events final) = displayed (events p) ++ [report] /\
    (exists now, report = getDemoAnalysis unicodeUpper now content) /\
    (forall now,
        Spec.withoutTimestamp report
        = Spec.withoutTimestamp (getDemoAnalysis unicodeUpper now content)) /\
    requests (events final)
    = requests (events p) ++ [analyzeRequest base content] /\
    notifications (events final)
    = notifications (events p)
      ++ [js "Using demo mode - backend temporarily unavailable"].
Proof.
  intros Hact Hbase Hcontent Htruthy Hfail. cbv zeta.
  destruct (truthy_cons _ Hbase) as (b & base' & ->).
  unfold Spec.livePostFails in Hfail.
  unfold_handler. cbn. rewrite <- Hcontent, Htruthy. cbn. rewrite Hact. cbn.
  destruct (network (requests (events p)) (analyzeRequest (b :: base') content))
    as [e | r].
  - cbn. fallback_report rendering.
  - rewrite Hfail. cbn. fallback_report rendering.
Qed.

(** The renderer, the string conversion and the null-property error of
    [script.js]. *)
Variable legacyRendering : value -> option Error.
Variable ToString : value -> jsstring.
Variable nullPropertyError : Error.

(** The handler of [script.js] on an empty input: it returns at once,
    without a request and without a message. *)
Lemma ScriptJs_empty_input (p : Page) :
  trim (contentInput_value p) = [] ->
  ScriptJs.submitHandler network legacyRendering ToString nullPropertyError p
  = (p, Normal tt).
Proof.
  intros H. unfold ScriptJs.submitHandler. unfold_js. cbn. rewrite H.
  reflexivity.
Qed.

(** The handler of [script.js] on a success response whose body does not
    parse: the rejection of [response.json()] reaches the [catch], which
    shows its message. *)
Lemma ScriptJs_malformed_success (p : Page) (r : Response) (e : Error) :
  truthy (trim (contentInput_value p)) = true ->
  network (requests (events p))
          (ScriptJs.analyzeRequest (trim (contentInput_value p))) = Responds r ->
  ok r = true -> json r = JsonRejects e ->
  let final :=
    run (ScriptJs.submitHandler network legacyRendering ToString nullPropertyError) p in
  displayed (events final) = displayed (events p) /\
  errorMessage_textContent final = message e /\
  errorSection_hidden final = false.
Proof.
  intros Htruthy Hnet Hok Hjson. cbv zeta.
  unfold ScriptJs.submitHandler, ScriptJs.displayReport, ScriptJs.showError,
    ScriptJs.showLoading.
  unfold_js. cbn. rewrite Htruthy. cbn. rewrite Hnet. cbn.
  rewrite Hok. cbn. rewrite Hjson. cbn. events_simpl.
  repeat split; reflexivity.
Qed.

(** C1, as the code has it: a success response whose body does not parse
    takes the same fallback as a failed call in [analyzeContent] (the
    synthesized report is rendered under the fallback notice, and an error
    is shown only if the renderer throws); a body that parses is handed to
    the renderer as it is, with no schema check; only the handler of
    [script.js], which has no synthesizer, shows the parse error. *)
Theorem malformed_success_falls_back (p : Page) (base content : jsstring)
        (r : Response) :
  activeBackendUrl p = Some base -> truthy base = true ->
  content = trim (contentInput_value p) -> truthy content = true ->
  network (requests (events p)) (analyzeRequest base content) = Responds r ->
  ok r = true ->
  let final := run (analyzeContent unicodeUpper network clock rendering) p in
  requests (events final) = requests (events p) ++ [analyzeRequest base content] /\
  match json r with
  | JsonRejects _ =>
      exists now,
        let report := getDemoAnalysis unicodeUpper now content in
        displayed (events final) = displayed (events p) ++ [report] /\
        notifications (events final)
        = notifications (events p)
          ++ [js "Using demo mode - backend temporarily unavailable"] /\
        errorSection_hidden final
        = match rendering report with Some _ => false | None => true end
  | JsonResolves v =>
      displayed (events final) = displayed (events p) ++ [v] /\
      notifications (events final) = notifications (events p) /\
      errorSection_hidden final
      = match rendering v with Some _ => false | None => true end
  end /\
  (forall r' e,
      network (requests (events p)) (ScriptJs.analyzeRequest content) = Responds r' ->
      ok r' = true -> json r' = JsonRejects e ->
      let legacy :=
        run (ScriptJs.submitHandler network legacyRendering ToString
               nullPropertyError) p in
      displayed (events legacy) = displayed (events p) /\
      errorMessage_textContent legacy = message e /\
      errorSection_hidden legacy = false).
Proof.
  intros Hact Hbase Hcontent Htruthy Hnet Hok. cbv zeta.
  split; [|split].
  - destruct (truthy_cons _ Hbase) as (b & base' & ->).
    unfold_handler. cbn. rewrite <- Hcontent, Htruthy. cbn. rewrite Hact. cbn.
    rewrite Hnet. cbn. rewrite Hok. cbn.
    destruct (json r); cbn; destruct (rendering _); cbn; events_simpl;
      reflexivity.
  - destruct (truthy_cons _ Hbase) as (b & base' & ->).
    unfold_handler. cbn. rewrite <- Hcontent, Htruthy. cbn. rewrite Hact. cbn.
    rewrite Hnet. cbn. rewrite Hok. cbn.
    destruct (json r) as [e | v]; cbn.
    + match goal with
      | |- context [getDemoAnalysis _ ?n _] => exists n
      end.
      cbv zeta. destruct (rendering _); cbn; events_simpl;
        repeat split; reflexivity.
    + destruct (rendering v); cbn; events_simpl; repeat split; reflexivity.
  - intros r' e Hnet' Hok' Hjson. subst content.
    apply ScriptJs_malformed_success with (r := r'); assumption.
Qed.

End OrchestratorFacts.

(* ================================================================== *)
(** ** Worked runs *)
(* ================================================================== *)

Section Runs.

Local Open Scope string_scope.

(** The empty content scores 30 - 10 = 20: LOW, RELIABLE, the placeholder
    tactic and no flag. *)
Example synthesize_empty :
  let report := getDemoAnalysis Sample.upperId (js "t") [] in
  riskScore Sample.upperId [] = 20%Z /\
  getPath ["analysis_summary"; "risk_level"] report = Some (Str (js "LOW")) /\
  getPath ["analysis_summary"; "credibility_rating"] report
  = Some (Str (js "RELIABLE")) /\
  get "detected_tactics" report = Some (Arr demoTactics) /\
  get "fact_check_flags" report = Some (Arr []).
Proof. vm_compute. repeat split. Qed.

(** A short content with a caps run, a trigger word and an exclamation
    mark scores 30 + 25 + 20 + 10 - 10 = 75. *)
Example synthesize_alarming :
  let content := js "BREAKING: the secret is out!" in
  let report := getDemoAnalysis Sample.upperId (js "t") content in
  riskScore Sample.upperId content = 75%Z /\
  getPath ["analysis_summary"; "risk_level"] report = Some (Str (js "HIGH")) /\
  getPath ["analysis_summary"; "credibility_rating"] report
  = Some (Str (js "QUESTIONABLE")) /\
  getPath ["recommendations"; "share_decision"] report
  = Some (Str (js "AVOID_SHARING")) /\
  get "fact_check_flags" report = Some (Arr emotionalFlags).
Proof. vm_compute. repeat split. Qed.

(** A long content with a trigger word only scores 55: MEDIUM risk with
    QUESTIONABLE credibility. *)
Example synthesize_medium :
  let content := (js "hidden" ++ repeat 32%N 100)%list in
  let report := getDemoAnalysis Sample.upperId (js "t") content in
  riskScore Sample.upperId content = 55%Z /\
  getPath ["analysis_summary"; "risk_level"] report = Some (Str (js "MEDIUM")) /\
  getPath ["analysis_summary"; "credibility_rating"] report
  = Some (Str (js "QUESTIONABLE")).
Proof. vm_compute. repeat split. Qed.

(** Three capitals before the exclamation mark are not a run of four. *)
Example synthesize_short_caps :
  hasAllCaps (js "ABC!D") = false /\ hasAllCaps (js "abCDEFg") = true.
Proof. vm_compute. split; reflexivity. Qed.

(** C1, the claim as stated fails: the page is loaded while every host
    answers 200 with an HTML body, then "hello" is submitted. The POST gets
    a success status, [response.json()] rejects, and the page renders the
    synthesized report under the fallback notice; no error is shown. *)
Lemma malformed_success_is_downgraded :
  let loaded :=
    run (checkBackendConnection Sample.htmlNetwork backendUrls)
        (initialPage (js "hello")) in
  let final :=
    run (analyzeContent Sample.upperId Sample.htmlNetwork Sample.clock
           Sample.rendering) loaded in
  activeBackendUrl loaded = Some Sample.render /\
  requests (events final)
  = [probeRequest Sample.render; analyzeRequest Sample.render (js "hello")] /\
  Sample.htmlNetwork [probeRequest Sample.render] (analyzeRequest Sample.render (js "hello"))
  = Responds (mkResponse 200 (js "OK")
                (JsonRejects (mkError (js "Unexpected token < in JSON at position 0")))) /\
  displayed (events final)
  = [getDemoAnalysis Sample.upperId (js "2024-01-01T00:00:00.000Z") (js "hello")] /\
  notifications (events final)
  = [js "Using demo mode - backend temporarily unavailable"] /\
  errorSection_hidden final = true /\
  errorMessage_textContent final = [].
Proof. vm_compute. repeat split. Qed.

(** The malformed-success case at a concrete page: the local server is
    the active endpoint and answers the POST with an HTML page. *)
Lemma malformed_success_falls_back_witness :
  let p := set_activeBackendUrl (Some Sample.localhost) (initialPage (js " hello ")) in
  let final :=
    run (analyzeContent Sample.upperId Sample.htmlNetwork Sample.clock
           Sample.rendering) p in
  truthy (trim (contentInput_value p)) = true /\
  requests (events final) = [analyzeRequest Sample.localhost (js "hello")].
Proof.
  cbv zeta. split; [reflexivity|].
  refine (proj1 (malformed_success_falls_back Sample.upperId Sample.htmlNetwork
                   Sample.clock Sample.rendering Sample.rendering
                   Sample.ToString Sample.nullPropertyError
                   (set_activeBackendUrl (Some Sample.localhost) (initialPage (js " hello ")))
                   (base := Sample.localhost) (content := js "hello")
                   (r := mkResponse 200 (js "OK")
                           (JsonRejects (mkError (js "Unexpected token < in JSON at position 0"))))
                   _ _ _ _ _ _)); reflexivity.
Defined.

(** The resolver on the script's candidates: with only the local server
    up, the third candidate is selected after three probes; with no host up,
    all four are probed and the page goes offline. *)
Lemma resolver_first_reachable_witness :
  let found := run (checkBackendConnection Sample.localNetwork backendUrls)
                   (initialPage []) in
  let none := run (checkBackendConnection Sample.deadNetwork backendUrls)
                  (initialPage []) in
  (activeBackendUrl found = Some Sample.localhost /\
   requests (events found) = List.map probeRequest [Sample.render; Sample.railway; Sample.localhost]) /\
  (activeBackendUrl none = None /\
   requests (events none) = List.map probeRequest backendUrls /\
   statusText_textContent none = js "Backend offline - Demo mode only").
Proof.
  cbv zeta. split.
  - destruct (resolver_first_reachable Sample.localNetwork backendUrls
                (initialPage []) eq_refl) as [Hfirst _].
    destruct (Hfirst [Sample.render; Sample.railway] Sample.localhost [Sample.cloudRun] eq_refl
                (conj eq_refl (conj eq_refl I)) eq_refl) as (A & R & _).
    split; [exact A | exact R].
  - destruct (resolver_first_reachable Sample.deadNetwork backendUrls
                (initialPage []) eq_refl) as [_ Hnone].
    destruct (Hnone (conj eq_refl (conj eq_refl (conj eq_refl (conj eq_refl I)))))
      as (A & R & T & _).
    repeat split; assumption.
Defined.

(** The fallback at a concrete page: the local server answers the POST
    with status 500. *)
Lemma live_failure_falls_back_witness :
  let p := set_activeBackendUrl (Some Sample.localhost) (initialPage (js " hello ")) in
  let final :=
    run (analyzeContent Sample.upperId Sample.localNetwork Sample.clock
           Sample.rendering) p in
  Spec.livePostFails Sample.localNetwork (requests (events p)) Sample.localhost (js "hello") /\
  exists report,
    displayed (events final) = [report] /\
    exists now, report = getDemoAnalysis Sample.upperId now (js "hello").
Proof.
  cbv zeta. split; [reflexivity|].
  destruct (live_failure_falls_back Sample.upperId Sample.localNetwork
              Sample.clock Sample.rendering
              (set_activeBackendUrl (Some Sample.localhost) (initialPage (js " hello ")))
              (base := Sample.localhost) (content := js "hello")
              eq_refl eq_refl eq_refl eq_refl eq_refl)
    as (report & D & N & _).
  exists report. split; [exact D | exact N].
Defined.

(** An input of three spaces: no request, the validation message. *)
Lemma empty_input_is_rejected_witness :
  let p := set_activeBackendUrl (Some Sample.localhost) (initialPage (js "   ")) in
  let final :=
    run (analyzeContent Sample.upperId Sample.localNetwork Sample.clock
           Sample.rendering) p in
  trim (contentInput_value p) = [] /\
  requests (events final) = [] /\
  errorMessage_textContent final = js "Please enter some content to analyze" /\
  errorSection_hidden final = false.
Proof.
  cbv zeta. split; [reflexivity|].
  destruct (empty_input_is_rejected Sample.upperId Sample.localNetwork
              Sample.clock Sample.rendering
              (set_activeBackendUrl (Some Sample.localhost) (initialPage (js "   ")))
              eq_refl)
    as (_ & R & _ & M & H & _).
  repeat split; assumption.
Defined.

End Runs.

(* ================================================================== *)
(** ** More on the synthesizer *)
(* ================================================================== *)

Section SynthesizerMore.

Local Open Scope string_scope.
Local Open Scope Z_scope.

Variable unicodeUpper : codeUnit -> jsstring.

Lemma includes_true (needle s : jsstring) :
  includes needle s = true <->
  exists pre post, s = (pre ++ needle ++ post)%list.
Proof.
  unfold includes. rewrite anyPosition_true. split.
  - intros (pre & suf & -> & H). apply startsWith_true in H.
    destruct H as (rest & ->). eauto.
  - intros (pre & post & ->). exists pre, (needle ++ post)%list.
    split; [reflexivity|]. apply startsWith_true. eauto.
Qed.

(** X1: The metadata of the report: the length of the content in code units,
    and "url" exactly when the content has the substring http (in lower
    case), "text" otherwise. *)
Theorem metadata_reflects_content (now content : jsstring) :
  let report := getDemoAnalysis unicodeUpper now content in
  let containsHttp := exists pre post, content = (pre ++ js "http" ++ post)%list in
  getPath ["metadata"; "content_length"] report
  = Some (Num (Z.of_nat (List.length content))) /\
  getPath ["metadata"; "model_used"] report = Some (Str (js "demo-mode")) /\
  (getPath ["metadata"; "source_type"] report = Some (Str (js "url"))
   <-> containsHttp) /\
  (getPath ["metadata"; "source_type"] report = Some (Str (js "text"))
   <-> ~ containsHttp).
Proof.
  cbv zeta. split; [reflexivity|]. split; [reflexivity|].
  change (getPath ["metadata"; "source_type"]
            (getDemoAnalysis unicodeUpper now content))
    with (Some (Str (if hasURL content then js "url" else js "text"))).
  unfold hasURL. rewrite <- includes_true.
  destruct (includes (js "http") content); split; split; intros H;
    try reflexivity; try discriminate; congruence.
Qed.

(** X2: The cap of 95 is never reached: the reported risk_score is the raw
    score itself, one of at most 16 sums between 20 and 85. *)
Theorem reported_score_is_raw_score (now content : jsstring) :
  getPath ["analysis_summary"; "risk_score"]
          (getDemoAnalysis unicodeUpper now content)
  = Some (Num (riskScore unicodeUpper content)) /\
  riskScore unicodeUpper content <= 85.
Proof.
  pose proof (riskScore_range unicodeUpper content) as R. split; [|lia].
  change (getPath ["analysis_summary"; "risk_score"]
            (getDemoAnalysis unicodeUpper now content))
    with (Some (Num (Z.min (riskScore unicodeUpper content) 95))).
  rewrite Z.min_l by lia. reflexivity.
Qed.

(** X3: Which contents are rated HIGH: those with a trigger word and a run of
    capitals that also have an exclamation mark or at least 100 code
    units. *)
Theorem high_risk_characterised (now content : jsstring) :
  getPath ["analysis_summary"; "risk_level"]
          (getDemoAnalysis unicodeUpper now content) = Some (Str (js "HIGH"))
  <-> Spec.ContainsTriggerWord content /\ Spec.ContainsCapsRun content /\
      (Spec.ContainsBang content \/ 100 <= Z.of_nat (List.length content)).
Proof.
  change (getPath ["analysis_summary"; "risk_level"]
            (getDemoAnalysis unicodeUpper now content))
    with (Some (Str (riskLevel unicodeUpper content))).
  rewrite riskLevel_cases. cbv zeta. rewrite riskScore_score.
  rewrite <- (hasEmotionalWords_true unicodeUpper), <- hasAllCaps_true,
    <- includes_bang.
  unfold JsString.length, Spec.score.
  destruct (Z.ltb_spec (Z.of_nat (List.length content)) 100);
    destruct (hasEmotionalWords unicodeUpper content), (hasAllCaps content),
      (includes (js "!") content); cbn; split; intros H';
    try discriminate; try (repeat split; auto; lia);
    try (destruct H' as (? & ? & [?|?]); try discriminate; lia).
Qed.

(** X4: The recommendation follows the risk level: share_decision is
    AVOID_SHARING, and immediate_action the extreme-caution text, exactly
    when risk_level is HIGH; otherwise SHARE_WITH_CONTEXT. *)
Theorem recommendation_follows_risk_level (now content : jsstring) :
  let report := getDemoAnalysis unicodeUpper now content in
  let high :=
    getPath ["analysis_summary"; "risk_level"] report = Some (Str (js "HIGH")) in
  (getPath ["recommendations"; "share_decision"] report
   = Some (Str (js "AVOID_SHARING")) <-> high) /\
  (getPath ["recommendations"; "share_decision"] report
   = Some (Str (js "SHARE_WITH_CONTEXT")) <-> ~ high) /\
  (getPath ["recommendations"; "immediate_action"] report
   = Some (Str (js "Exercise extreme caution - verify all claims before acting"))
   <-> high).
Proof.
  cbv zeta.
  change (getPath ["analysis_summary"; "risk_level"]
            (getDemoAnalysis unicodeUpper now content))
    with (Some (Str (riskLevel unicodeUpper content))).
  change (getPath ["recommendations"; "share_decision"]
            (getDemoAnalysis unicodeUpper now content))
    with (Some (Str (if riskScore unicodeUpper content >? 70
                     then js "AVOID_SHARING" else js "SHARE_WITH_CONTEXT"))).
  change (getPath ["recommendations"; "immediate_action"]
            (getDemoAnalysis unicodeUpper now content))
    with (Some (Str (if riskScore unicodeUpper content >? 70
                     then js "Exercise extreme caution - verify all claims before acting"
                     else js "Proceed with normal fact-checking practices"))).
  rewrite riskLevel_cases. cbv zeta. rewrite !Z.gtb_ltb.
  destruct (70 <? riskScore unicodeUpper content);
    destruct (50 <? riskScore unicodeUpper content);
    repeat split; intros; try reflexivity; try discriminate;
    try (intro; discriminate); try (exfalso; auto; fail).
Qed.

Lemma ContainsTriggerWord_extend (pre content post : jsstring) :
  Spec.ContainsTriggerWord content ->
  Spec.ContainsTriggerWord (pre ++ content ++ post)%list.
Proof.
  intros (w & p1 & mid & p2 & Hin & -> & F).
  exists w, (pre ++ p1)%list, mid, (p2 ++ post)%list.
  repeat split; auto. rewrite <- !app_assoc. reflexivity.
Qed.

Lemma ContainsCapsRun_extend (pre content post : jsstring) :
  Spec.ContainsCapsRun content ->
  Spec.ContainsCapsRun (pre ++ content ++ post)%list.
Proof.
  intros (p1 & run & p2 & -> & L & F).
  exists (pre ++ p1)%list, run, (p2 ++ post)%list.
  repeat split; auto. rewrite <- !app_assoc. reflexivity.
Qed.

Lemma ContainsBang_extend (pre content post : jsstring) :
  Spec.ContainsBang content ->
  Spec.ContainsBang (pre ++ content ++ post)%list.
Proof.
  unfold Spec.ContainsBang. intros H.
  apply in_or_app. right. apply in_or_app. left. exact H.
Qed.

(** X5: Surrounding a content with more text never lowers its score: every
    signal found in the content is still found, and the deduction for
    short contents can only go away. *)
Theorem score_grows_with_context (pre content post : jsstring) :
  riskScore unicodeUpper content
  <= riskScore unicodeUpper (pre ++ content ++ post)%list.
Proof.
  rewrite !riskScore_score. unfold Spec.score, JsString.length.
  pose proof (@ContainsTriggerWord_extend pre content post) as T.
  pose proof (@ContainsCapsRun_extend pre content post) as C.
  pose proof (@ContainsBang_extend pre content post) as B.
  rewrite <- !(hasEmotionalWords_true unicodeUpper) in T.
  rewrite <- !hasAllCaps_true in C. rewrite <- !includes_bang in B.
  assert (L : (List.length content <= List.length (pre ++ content ++ post)%list)%nat)
    by (rewrite !length_app; lia).
  destruct (Z.ltb_spec (Z.of_nat (List.length content)) 100);
    destruct (Z.ltb_spec (Z.of_nat (List.length (pre ++ content ++ post)%list)) 100);
    try lia;
    destruct (hasEmotionalWords unicodeUpper content);
    try (rewrite (T eq_refl));
    destruct (hasAllCaps content); try (rewrite (C eq_refl));
    destruct (includes (js "!") content); try (rewrite (B eq_refl));
    destruct (hasEmotionalWords unicodeUpper (pre ++ content ++ post)%list);
    destruct (hasAllCaps (pre ++ content ++ post)%list);
    destruct (includes (js "!") (pre ++ content ++ post)%list);
    lia.
Qed.

(** X6: The quotation in the first tactic is at most 103 code units long, and
    it is the whole content followed by the dots when the content has at
    most 100 code units. *)
Theorem quoted_example_is_bounded (now content : jsstring) :
  hasEmotionalWords unicodeUpper content = true ->
  exists first others example,
    get "detected_tactics" (getDemoAnalysis unicodeUpper now content)
    = Some (Arr (first :: others)) /\
    get "example_from_content" first = Some (Str example) /\
    Z.of_nat (List.length example)
    = Z.min (Z.of_nat (List.length content)) 100 + 3 /\
    (Z.of_nat (List.length content) <= 100 ->
     example = (content ++ js "...")%list).
Proof.
  intros H. unfold getDemoAnalysis. rewrite H.
  do 3 eexists. split; [reflexivity|]. split; [reflexivity|].
  unfold substring0. split.
  - rewrite length_app, length_firstn.
    change (List.length (js "...")) with 3%nat. lia.
  - intros L. rewrite firstn_all2 by lia. reflexivity.
Qed.

End SynthesizerMore.

(* ================================================================== *)
(** ** Trimming *)
(* ================================================================== *)

Section TrimFacts.

Lemma trimStart_split (s : jsstring) :
  exists pre,
    s = pre ++ trimStart s /\ forallb isWhiteSpace pre = true /\
    match trimStart s with
    | c :: _ => isWhiteSpace c = false
    | [] => True
    end.
Proof.
  induction s as [|c t IH].
  - exists []. repeat split.
  - cbn [trimStart]. destruct (isWhiteSpace c) eqn:W.
    + destruct IH as (pre & E & F & H). exists (c :: pre).
      cbn [forallb app]. rewrite W, F. rewrite E at 1. repeat split. exact H.
    + exists []. cbn. rewrite W. repeat split.
Qed.

Lemma forallb_rev (f : codeUnit -> bool) (l : jsstring) :
  forallb f (rev l) = forallb f l.
Proof.
  induction l as [|x l IH]; [reflexivity|].
  cbn [rev forallb]. rewrite forallb_app, IH. cbn. rewrite andb_true_r.
  apply andb_comm.
Qed.

(** [trim] cuts a stretch of white space off each end and nothing else:
    what is left neither starts nor ends with white space. *)
Theorem trim_characterised (s : jsstring) :
  exists pre post,
    s = pre ++ trim s ++ post /\
    forallb isWhiteSpace pre = true /\ forallb isWhiteSpace post = true /\
    (forall c rest, trim s = c :: rest -> isWhiteSpace c = false) /\
    (forall body c, trim s = body ++ [c] -> isWhiteSpace c = false).
Proof.
  unfold trim.
  destruct (trimStart_split s) as (pre & Es & Fpre & Hhead).
  destruct (trimStart_split (rev (trimStart s))) as (tsop & Er & Fpost & Hlast).
  set (m := trimStart s) in *. set (t := trimStart (rev m)) in *.
  assert (Em : m = rev t ++ rev tsop).
  { rewrite <- rev_app_distr, <- Er, rev_involutive. reflexivity. }
  exists pre, (rev tsop). split; [|split; [exact Fpre|split; [|split]]].
  - rewrite <- Em. exact Es.
  - rewrite forallb_rev. exact Fpost.
  - intros c rest E. rewrite Em, E in Hhead. exact Hhead.
  - intros body c E.
    assert (Et : t = c :: rev body).
    { rewrite <- (rev_involutive t), E, rev_app_distr. reflexivity. }
    rewrite Et in Hlast. exact Hlast.
Qed.

Lemma trim_nil_iff (s : jsstring) :
  trim s = [] <-> forallb isWhiteSpace s = true.
Proof.
  destruct (trim_characterised s) as (pre & post & E & Fpre & Fpost & Hhead & _).
  split.
  - intros H. rewrite H in E. rewrite E. cbn.
    rewrite forallb_app, Fpre, Fpost. reflexivity.
  - intros H. destruct (trim s) as [|c rest] eqn:T; [reflexivity|].
    exfalso. specialize (Hhead c rest eq_refl).
    rewrite E, !forallb_app in H. cbn in H. rewrite Hhead in H.
    rewrite andb_false_r in H. discriminate.
Qed.

End TrimFacts.

(* ================================================================== *)
(** ** More on the resolver *)
(* ================================================================== *)

Section ResolverMore.

Variable network : list Request -> Request -> FetchOutcome.

Lemma sameForm_refl (p : Page) : Frame.sameForm p p.
Proof. repeat split. Qed.

Lemma sameForm_trans (p q r : Page) :
  Frame.sameForm p q -> Frame.sameForm q r -> Frame.sameForm p r.
Proof.
  unfold Frame.sameForm. intros (A & B & C & D & E & F) (A' & B' & C' & D' & E' & F').
  repeat split; congruence.
Qed.

Lemma sameOutput_trans (p q r : Page) :
  Frame.sameOutput p q -> Frame.sameOutput q r -> Frame.sameOutput p r.
Proof.
  unfold Frame.sameOutput. intros (A & B) (A' & B'). split; congruence.
Qed.

Lemma probe_frame (u : jsstring) (p : Page) :
  exists p',
    probe network u p
    = (p', Normal (Spec.reachable network (requests (events p)) u)) /\
    Frame.sameForm p p' /\ Frame.sameOutput p p' /\
    requests (events p') = requests (events p) ++ [probeRequest u].
Proof.
  unfold Spec.reachable, probe. unfold_js. cbn [events emit].
  rewrite requests_app. cbn [requests]. rewrite app_nil_r.
  destruct (network (requests (events p)) (probeRequest u)) as [e | r].
  - eexists. split; [reflexivity|].
    unfold Frame.sameForm, Frame.sameOutput. cbn. events_simpl.
    repeat split; reflexivity.
  - destruct (ok r); eexists; (split; [reflexivity|]);
      unfold Frame.sameForm, Frame.sameOutput; cbn; events_simpl;
      repeat split; reflexivity.
Qed.

Lemma probeAll_outcome (urls : list jsstring) (p : Page) :
  let result := probeAll network urls p in
  let final := fst result in
  snd result = Normal tt /\
  Frame.sameForm p final /\ Frame.sameOutput p final /\
  exists n,
    n <= List.length urls /\
    requests (events final)
    = requests (events p) ++ List.map probeRequest (firstn n urls) /\
    ((exists u,
         0 < n /\ nth_error urls (pred n) = Some u /\
         activeBackendUrl final = Some u /\
         statusText_textContent final = js "Connected to backend" /\
         statusIcon_className final = js "fas fa-circle text-success")
     \/
     (n = List.length urls /\
      activeBackendUrl final = activeBackendUrl p /\
      statusText_textContent final = js "Backend offline - Demo mode only" /\
      statusIcon_className final = js "fas fa-circle text-error")).
Proof.
  revert p. induction urls as [|u rest IH]; intros p; cbv zeta.
  - cbn [probeAll]. unfold_js. cbn.
    unfold Frame.sameForm, Frame.sameOutput. cbn. events_simpl.
    repeat split; try reflexivity.
    exists 0. cbn. rewrite app_nil_r. repeat split; auto.
  - destruct (probe_frame u p) as (p' & E & F & O & R).
    cbn [probeAll]. unfold bind. rewrite E.
    destruct (Spec.reachable network (requests (events p)) u) eqn:Hu.
    + unfold ret. cbn [fst snd].
      repeat split; try apply F; try apply O.
      exists 1. cbn [firstn List.map List.length pred nth_error].
      split; [lia|]. split; [exact R|]. left.
      destruct (probe_reachable network u p Hu) as (p2 & E2 & A & T & I & _).
      rewrite E in E2. injection E2 as <-. exists u. repeat split; auto.
    + specialize (IH p'). cbv zeta in IH.
      destruct IH as (N & F' & O' & n & Hn & R' & Hcase).
      split; [exact N|].
      split; [eapply sameForm_trans; eauto|].
      split; [eapply sameOutput_trans; eauto|].
      exists (S n). cbn [firstn List.map List.length].
      split; [lia|]. split.
      { rewrite R', R, <- app_assoc. reflexivity. }
      destruct (probe_unreachable network u p Hu) as (p2 & E2 & A & T & I & _).
      rewrite E in E2. injection E2 as <-.
      destruct Hcase as [(v & Hpos & Hnth & Hrest) | (Hlen & Hact & Hrest)].
      * left. exists v. split; [lia|]. split; [|exact Hrest].
        destruct n as [|k]; [lia|]. exact Hnth.
      * right. split; [congruence|]. split; [congruence|]. exact Hrest.
Qed.


End ResolverMore.

(* ================================================================== *)
(** ** More on the orchestrator *)
(* ================================================================== *)

(** After the handler is unfolded: name the value handed to the renderer,
    split on what the renderer does with it, and read the fields off. *)
Ltac display_cases rendering :=
  let R := fresh "R" in
  destruct (rendering _) eqn:R; cbn; repeat split;
  first
    [ assumption
    | events_simpl; reflexivity
    | match goal with
      | R' : rendering ?d = _ |- _ =>
          exists d; rewrite R'; events_simpl; repeat split; reflexivity
      end ].

Section OrchestratorMore.

Variable unicodeUpper : codeUnit -> jsstring.
Variable network : list Request -> Request -> FetchOutcome.
Variable clock : list Event -> jsstring.
Variable rendering : value -> option Error.

Lemma analyzeContent_nonempty (p : Page) :
  truthy (trim (contentInput_value p)) = true ->
  let content := trim (contentInput_value p) in
  let result := analyzeContent unicodeUpper network clock rendering p in
  let final := fst result in
  snd result = Normal tt /\
  Frame.sameBackend p final /\
  contentInput_value final = contentInput_value p /\
  loadingOverlay_hidden final = true /\
  analyzeBtn_loading final = false /\
  resultsSection_hidden final = false /\
  requests (events final)
  = requests (events p)
    ++ match activeBackendUrl p with
       | Some (c :: base) => [analyzeRequest (c :: base) content]
       | _ => []
       end /\
  exists data,
    displayed (events final) = displayed (events p) ++ [data] /\
    match rendering data with
    | Some e =>
        errorSection_hidden final = false /\
        errorMessage_textContent final = js "Analysis failed: " ++ message e
    | None =>
        errorSection_hidden final = true /\
        errorMessage_textContent final = errorMessage_textContent p
    end.
Proof.
  intros H. cbv zeta. unfold Frame.sameBackend.
  unfold_handler. cbn. rewrite H. cbn.
  destruct (activeBackendUrl p) as [[|c base]|] eqn:A; cbn.
  - display_cases rendering.
  - destruct (network _ _) as [e | r]; cbn;
      [|destruct (ok r); cbn; [destruct (json r); cbn|]];
      display_cases rendering.
  - display_cases rendering.
Qed.

Lemma analyzeContent_empty (p : Page) :
  truthy (trim (contentInput_value p)) = false ->
  analyzeContent unicodeUpper network clock rendering p
  = (set_errorHidden false
       (set_errorMessage (js "Please enter some content to analyze") p),
     Normal tt).
Proof.
  intros H. unfold_handler. cbn. rewrite H. reflexivity.
Qed.


(** X9: One call of [analyzeContent] sends at most one request, never a retry:
    the POST of the trimmed content to the active endpoint when there is
    one and the content is not empty, and nothing otherwise. An endpoint
    that is the empty string counts as none. *)
Theorem analyze_sends_at_most_one_post (p : Page) :
  let content := trim (contentInput_value p) in
  let final := run (analyzeContent unicodeUpper network clock rendering) p in
  requests (events final)
  = requests (events p)
    ++ match content, activeBackendUrl p with
       | _ :: _, Some (c :: base) => [analyzeRequest (c :: base) content]
       | _, _ => []
       end.
Proof.
  cbv zeta. unfold run.
  destruct (truthy (trim (contentInput_value p))) eqn:H.
  - destruct (analyzeContent_nonempty p H) as (_ & _ & _ & _ & _ & _ & R & _).
    rewrite R. destruct (trim (contentInput_value p)); [discriminate|].
    reflexivity.
  - rewrite (analyzeContent_empty p H). cbn.
    destruct (trim (contentInput_value p)); [|discriminate].
    rewrite app_nil_r. reflexivity.
Qed.

(** X10: After a non-empty submission exactly one value has been handed to the
    renderer and the results section is visible. If the renderer threw,
    the error section is visible as well and shows "Analysis failed: "
    followed by the message of the exception; if it did not, the error
    section is hidden and its text is left as it was. No failure of the
    backend reaches the error section. *)
Theorem render_outcome_decides_error (p : Page) :
  truthy (trim (contentInput_value p)) = true ->
  let final := run (analyzeContent unicodeUpper network clock rendering) p in
  resultsSection_hidden final = false /\
  exists data,
    displayed (events final) = displayed (events p) ++ [data] /\
    match rendering data with
    | Some e =>
        errorSection_hidden final = false /\
        errorMessage_textContent final = js "Analysis failed: " ++ message e
    | None =>
        errorSection_hidden final = true /\
        errorMessage_textContent final = errorMessage_textContent p
    end.
Proof.
  intros H. cbv zeta. unfold run.
  destruct (analyzeContent_nonempty p H) as (_ & _ & _ & _ & _ & V & _ & D).
  split; [exact V | exact D].
Qed.

Lemma analyzeContent_demo_mode (p : Page) :
  truthy (trim (contentInput_value p)) = true ->
  match activeBackendUrl p with Some u => truthy u | None => false end = false ->
  let content := trim (contentInput_value p) in
  let final := run (analyzeContent unicodeUpper network clock rendering) p in
  requests (events final) = requests (events p) /\
  displayed (events final)
  = displayed (events p)
    ++ [getDemoAnalysis unicodeUpper (clock (events p)) content] /\
  notifications (events final)
  = notifications (events p) ++ [js "Running in demo mode"].
Proof.
  intros H A. cbv zeta. unfold_handler. cbn. rewrite H. cbn.
  destruct (activeBackendUrl p) as [[|c base]|]; try discriminate; cbn;
    destruct (rendering _); cbn; events_simpl; repeat split; reflexivity.
Qed.

(** X11: Without an endpoint ([null], or the empty string) a non-empty
    submission sends nothing: the report is synthesized from the trimmed
    content at the clock reading of the call and shown under the notice
    "Running in demo mode". *)
Theorem demo_mode_without_endpoint (p : Page) :
  truthy (trim (contentInput_value p)) = true ->
  match activeBackendUrl p with Some u => truthy u | None => false end = false ->
  let content := trim (contentInput_value p) in
  let final := run (analyzeContent unicodeUpper network clock rendering) p in
  requests (events final) = requests (events p) /\
  displayed (events final)
  = displayed (events p)
    ++ [getDemoAnalysis unicodeUpper (clock (events p)) content] /\
  notifications (events final)
  = notifications (events p) ++ [js "Running in demo mode"].
Proof.
  exact (analyzeContent_demo_mode p).
Qed.

(** X12: Nothing is rendered exactly when the input consists of white space
    only (the empty input included): that is the one case in which the
    handler stops at the validation message. *)
Theorem nothing_rendered_iff_blank_input (p : Page) :
  let final := run (analyzeContent unicodeUpper network clock rendering) p in
  displayed (events final) = displayed (events p)
  <-> forallb isWhiteSpace (contentInput_value p) = true.
Proof.
  cbv zeta. unfold run. rewrite <- trim_nil_iff.
  destruct (truthy (trim (contentInput_value p))) eqn:H.
  - destruct (analyzeContent_nonempty p H) as (_ & _ & _ & _ & _ & _ & _ & d & D & _).
    rewrite D. split.
    + intros E. rewrite <- (app_nil_r (displayed (events p))) in E at 2.
      apply app_inv_head in E. discriminate.
    + intros E. rewrite E in H. discriminate.
  - rewrite (analyzeContent_empty p H). cbn. split; [|reflexivity].
    intros _. destruct (trim (contentInput_value p)); [reflexivity|discriminate].
Qed.

End OrchestratorMore.

(* ================================================================== *)
(** ** Sessions: page load, submissions, buttons *)
(* ================================================================== *)

Section SessionFacts.

Local Open Scope js_scope.

Variable unicodeUpper : codeUnit -> jsstring.
Variable network : list Request -> Request -> FetchOutcome.
Variable clock : list Event -> jsstring.
Variable rendering : value -> option Error.

Lemma checkBackendConnection_probeAll (urls : list jsstring) (p : Page) :
  checkBackendConnection network urls p
  = probeAll network urls
      (set_statusIcon (js "fas fa-circle text-warning")
         (set_statusText (js "Checking backend connection...") p)).
Proof. reflexivity. Qed.

(** X13: A page loaded while no candidate answers, then a non-empty
    submission: the only requests of the session are the probes, the
    report is the synthesized one for the trimmed input under the notice
    "Running in demo mode", and the status still says offline. *)
Theorem offline_session (urls : list jsstring) (input : jsstring) :
  Spec.allUnreachable network [] urls ->
  truthy (trim input) = true ->
  let loaded := run (checkBackendConnection network urls) (initialPage input) in
  let final := run (analyzeContent unicodeUpper network clock rendering) loaded in
  requests (events final) = List.map probeRequest urls /\
  (exists now,
      displayed (events final)
      = [getDemoAnalysis unicodeUpper now (trim input)]) /\
  notifications (events final) = [js "Running in demo mode"] /\
  statusText_textContent final = js "Backend offline - Demo mode only".
Proof.
  intros Hall Hin. cbv zeta. unfold run.
  rewrite checkBackendConnection_probeAll.
  set (p0 := set_statusIcon _ _).
  pose proof (probeAll_unreachable network urls p0 Hall) as U.
  pose proof (probeAll_outcome network urls p0) as O.
  cbv zeta in U, O. unfold run in U.
  set (loaded := fst (probeAll network urls p0)) in *.
  destruct U as (A & T & _ & R).
  destruct O as (_ & (I & _) & (D & N) & _).
  assert (Hin' : truthy (trim (contentInput_value loaded)) = true)
    by (rewrite I; exact Hin).
  assert (A' : match activeBackendUrl loaded with
               | Some u => truthy u | None => false end = false)
    by (rewrite A; reflexivity).
  destruct (analyzeContent_demo_mode unicodeUpper network clock rendering
              loaded Hin' A') as (R' & D' & N').
  destruct (analyzeContent_nonempty unicodeUpper network clock rendering
              loaded Hin') as (_ & (_ & T' & _) & _).
  unfold run in R', D', N'.
  rewrite R', D', N', R, D, N, I, T', T. cbn.
  repeat split; try reflexivity. eexists. reflexivity.
Qed.

(** X14: A page loaded while [u] is the first candidate that answers, then a
    non-empty submission: after the probes up to [u], the one further
    request of the session is the POST of the trimmed input to
    [u + "/analyze"]. *)
Theorem connected_session (pre : list jsstring) (u : jsstring)
        (post : list jsstring) (input : jsstring) :
  Spec.allUnreachable network [] pre ->
  Spec.reachable network (List.map probeRequest pre) u = true ->
  truthy u = true -> truthy (trim input) = true ->
  let loaded :=
    run (checkBackendConnection network (pre ++ u :: post)) (initialPage input) in
  let final := run (analyzeContent unicodeUpper network clock rendering) loaded in
  activeBackendUrl final = Some u /\
  requests (events final)
  = List.map probeRequest (pre ++ [u]) ++ [analyzeRequest u (trim input)].
Proof.
  intros Hpre Hu Htu Hin. cbv zeta. unfold run.
  rewrite checkBackendConnection_probeAll.
  set (p0 := set_statusIcon _ _).
  pose proof (probeAll_first network pre u post p0 Hpre Hu) as U.
  pose proof (probeAll_outcome network (pre ++ u :: post) p0) as O.
  cbv zeta in U, O. unfold run in U.
  set (loaded := fst (probeAll network (pre ++ u :: post) p0)) in *.
  destruct U as (A & _ & _ & R).
  destruct O as (_ & (I & _) & _).
  assert (Hin' : truthy (trim (contentInput_value loaded)) = true)
    by (rewrite I; exact Hin).
  destruct (analyzeContent_nonempty unicodeUpper network clock rendering
              loaded Hin') as (_ & (A' & _) & _ & _ & _ & _ & R' & _).
  rewrite A', R', A, R, I.
  destruct u as [|c base]; [discriminate|]. split; reflexivity.
Qed.

(** X15: The retry button does what a submission does, on every page. *)
Theorem retry_is_submit (p : Page) :
  retryBtnClick unicodeUpper network clock rendering p
  = onSubmit unicodeUpper network clock rendering p.
Proof.
  unfold retryBtnClick, onSubmit. unfold_handler. cbn.
  destruct (truthy (trim (contentInput_value p))); cbn; [|reflexivity].
  destruct (activeBackendUrl p) as [[|c base]|]; cbn; try reflexivity.
Qed.

(** X16: After the new-analysis button the input is empty, so the next
    submission stops at the validation message: nothing is sent, nothing
    is rendered, and the results stay hidden. *)
Theorem submit_after_new_analysis (p : Page) :
  let final :=
    run (newAnalysisBtnClick ;;
         onSubmit unicodeUpper network clock rendering) p in
  contentInput_value final = [] /\
  events final = events p /\
  resultsSection_hidden final = true /\
  errorSection_hidden final = false /\
  errorMessage_textContent final = js "Please enter some content to analyze".
Proof.
  cbv zeta. unfold newAnalysisBtnClick, onSubmit. unfold_handler. cbn.
  repeat split; reflexivity.
Qed.

End SessionFacts.

(* ================================================================== *)
(** ** The handler of [script.js] *)
(* ================================================================== *)

Ltac unfold_legacy :=
  unfold ScriptJs.submitHandler, ScriptJs.errorOfDetail, ScriptJs.displayReport,
    ScriptJs.showError, ScriptJs.showLoading;
  unfold_js.

Section LegacyFacts.

Local Open Scope string_scope.

Variable network : list Request -> Request -> FetchOutcome.
Variable rendering : value -> option Error.
Variable ToString : value -> jsstring.
Variable nullPropertyError : Error.

Lemma submitHandler_nonempty (p : Page) :
  truthy (trim (contentInput_value p)) = true ->
  let content := trim (contentInput_value p) in
  let result :=
    ScriptJs.submitHandler network rendering ToString nullPropertyError p in
  let final := fst result in
  snd result = Normal tt /\
  loadingOverlay_hidden final = true /\
  requests (events final)
  = (requests (events p) ++ [ScriptJs.analyzeRequest content])%list /\
  notifications (events final) = notifications (events p) /\
  displayed (events final)
  = (displayed (events p)
     ++ match network (requests (events p)) (ScriptJs.analyzeRequest content) with
        | Responds r =>
            if ok r
            then match json r with JsonResolves v => [v] | JsonRejects _ => [] end
            else []
        | Rejects _ => []
        end)%list.
Proof.
  intros H. cbv zeta. unfold_legacy. cbn. rewrite H. cbn.
  destruct (network _ _) as [e | r]; cbn.
  - events_simpl. repeat split; reflexivity.
  - destruct (ok r); cbn; destruct (json r) as [e | v]; cbn.
    + events_simpl. repeat split; reflexivity.
    + destruct (rendering v); cbn; events_simpl; repeat split; reflexivity.
    + events_simpl. repeat split; reflexivity.
    + destruct v as [| | | | |props]; cbn;
        try (events_simpl; repeat split; reflexivity).
      destruct (assoc "detail" props) as [d|]; cbn;
        [destruct (ScriptJs.truthyValue d); cbn|];
        events_simpl; repeat split; reflexivity.
Qed.

(** X17: The handler of [script.js] never lets an exception out. A non-empty
    submission sends exactly one request, the POST of the trimmed input to
    the fixed backend, shows no notice, and ends with the loading overlay
    hidden; an empty one changes nothing at all. *)
Theorem legacy_submit_settles (p : Page) :
  let content := trim (contentInput_value p) in
  let result :=
    ScriptJs.submitHandler network rendering ToString nullPropertyError p in
  let final := fst result in
  snd result = Normal tt /\
  match content with
  | [] => final = p
  | _ :: _ =>
      requests (events final)
      = (requests (events p) ++ [ScriptJs.analyzeRequest content])%list /\
      notifications (events final) = notifications (events p) /\
      loadingOverlay_hidden final = true
  end.
Proof.
  cbv zeta. destruct (truthy (trim (contentInput_value p))) eqn:H.
  - destruct (submitHandler_nonempty p H) as (N & L & R & O & _).
    split; [exact N|].
    destruct (trim (contentInput_value p)); [discriminate|]. auto.
  - assert (E : trim (contentInput_value p) = [])
      by (destruct (trim (contentInput_value p)); [reflexivity|discriminate]).
    unfold_legacy. cbn. rewrite E. cbn. split; reflexivity.
Qed.

(** X18: The handler of [script.js] has no fallback: it hands a value to the
    renderer only when the response has a success status and its body
    parses, and then it is the parsed body; in every other case nothing is
    rendered. *)
Theorem legacy_renders_only_parsed_success (p : Page) :
  truthy (trim (contentInput_value p)) = true ->
  let content := trim (contentInput_value p) in
  let final :=
    run (ScriptJs.submitHandler network rendering ToString nullPropertyError) p in
  displayed (events final)
  = (displayed (events p)
     ++ match network (requests (events p)) (ScriptJs.analyzeRequest content) with
        | Responds r =>
            if ok r
            then match json r with JsonResolves v => [v] | JsonRejects _ => [] end
            else []
        | Rejects _ => []
        end)%list.
Proof.
  intros H. cbv zeta. unfold run.
  destruct (submitHandler_nonempty p H) as (_ & _ & _ & _ & D). exact D.
Qed.

(** X19: What the handler of [script.js] shows when the call fails, the error
    section being visible in each case: the message of the network error;
    for a non-success status, the [detail] string of the JSON body when it
    has a non-empty one, "Analysis failed" when the body is an object
    without [detail], and the parse error's message when the error body is
    not JSON. *)
Theorem legacy_error_messages (p : Page) :
  truthy (trim (contentInput_value p)) = true ->
  let content := trim (contentInput_value p) in
  let outcome :=
    network (requests (events p)) (ScriptJs.analyzeRequest content) in
  let final :=
    run (ScriptJs.submitHandler network rendering ToString nullPropertyError) p in
  (forall e, outcome = Rejects e ->
     errorMessage_textContent final = message e /\
     errorSection_hidden final = false) /\
  (forall r, outcome = Responds r -> ok r = false ->
     errorSection_hidden final = false /\
     match json r with
     | JsonRejects e => errorMessage_textContent final = message e
     | JsonResolves (Obj props) =>
         match assoc "detail" props with
         | Some (Str (c :: d)) => errorMessage_textContent final = c :: d
         | None => errorMessage_textContent final = js "Analysis failed"
         | _ => True
         end
     | JsonResolves Null =>
         errorMessage_textContent final = message nullPropertyError
     | JsonResolves _ => errorMessage_textContent final = js "Analysis failed"
     end).
Proof.
  intros H. cbv zeta. split.
  - intros e E. unfold_legacy. cbn. rewrite H. cbn. rewrite E. cbn.
    split; reflexivity.
  - intros r E Hok. unfold_legacy. cbn. rewrite H. cbn. rewrite E. cbn.
    rewrite Hok. cbn.
    destruct (json r) as [e | v]; cbn; [split; reflexivity|].
    destruct v as [| | | | |props]; cbn; try (split; reflexivity).
    destruct (assoc "detail" props) as [d|]; cbn; [|split; reflexivity].
    destruct d as [|b|n|[|c d]|items|props']; cbn;
      try destruct b; try destruct (n =? 0)%Z; cbn; split; auto.
Qed.

End LegacyFacts.

(* ================================================================== *)
(** ** The renderer *)
(* ================================================================== *)

(** The report of [getDemoAnalysis], with the conditions the renderer
    meets decided. *)
Ltac decide_report content :=
  unfold getDemoAnalysis, emotionalTactics;
  rewrite ?riskLevel_cases, ?credibility_cases;
  cbv zeta; rewrite ?Z.gtb_ltb;
  destruct (hasEmotionalWords _ content),
    (70 <? riskScore _ content)%Z, (50 <? riskScore _ content)%Z,
    (substring0 100 content).

Section RenderFacts.

Local Open Scope string_scope.
Local Open Scope list_scope.

Variable unicodeUpper : codeUnit -> jsstring.
Variable network : list Request -> Request -> FetchOutcome.
Variable clock : list Event -> jsstring.
Variable unicodeLower : jsstring -> jsstring.
Variable ToStringOther : value -> Completion jsstring.
Variable lengthIsPositive : value -> Completion bool.
Variable readOfNull : string -> Error.
Variable notCallable : string -> value -> Error.

Lemma displayReportBody_synthesized (now content : jsstring) :
  snd (Render.displayReportBody unicodeLower ToStringOther lengthIsPositive
         readOfNull notCallable (getDemoAnalysis unicodeUpper now content))
  = Normal tt.
Proof.
  decide_report content; vm_compute; reflexivity.
Qed.

Lemma rendering_synthesized (now content : jsstring) :
  Render.rendering unicodeLower ToStringOther lengthIsPositive readOfNull
    notCallable (getDemoAnalysis unicodeUpper now content) = None.
Proof.
  unfold Render.rendering. rewrite displayReportBody_synthesized. reflexivity.
Qed.

(** X20: [displayReport] never throws on a report of [getDemoAnalysis]. It
    writes the risk level and the credibility rating of the report into
    their elements, and it shows the fact-check section when the content
    has a trigger word and hides it when it has none. *)
Theorem renderer_accepts_synthesized_reports (now content : jsstring) :
  let result :=
    Render.displayReportBody unicodeLower ToStringOther lengthIsPositive
      readOfNull notCallable (getDemoAnalysis unicodeUpper now content) in
  snd result = Normal tt /\
  Render.writesTo "riskLevelText" (fst result)
  = [Render.TextContent "riskLevelText" (riskLevel unicodeUpper content)] /\
  Render.writesTo "credibilityRating" (fst result)
  = [Render.TextContent "credibilityRating" (credibility unicodeUpper content);
     Render.ClassName "credibilityRating"
       (js "rating-value "
        ++ Render.toLowerCase unicodeLower (credibility unicodeUpper content))] /\
  Render.writesTo "factCheckSection" (fst result)
  = [if hasEmotionalWords unicodeUpper content
     then Render.ClassListRemove "factCheckSection" (js "hidden")
     else Render.ClassListAdd "factCheckSection" (js "hidden")].
Proof.
  cbv zeta. split; [apply displayReportBody_synthesized|].
  decide_report content; vm_compute; repeat split.
Qed.

(** X21: The user's text goes into the markup as it is. For a content with a
    trigger word, the first item appended to the tactics list has as its
    [innerHTML] the template with the first 100 code units of the content
    and the dots substituted verbatim: no character of the content is
    escaped. *)
Theorem quoted_content_enters_markup_unescaped (now content : jsstring) :
  hasEmotionalWords unicodeUpper content = true ->
  let result :=
    Render.displayReportBody unicodeLower ToStringOther lengthIsPositive
      readOfNull notCallable (getDemoAnalysis unicodeUpper now content) in
  exists second,
    Render.writesTo "detectedTactics" (fst result)
    = [ Render.InnerHTML "detectedTactics" [];
        Render.AppendDiv "detectedTactics" (js "tactic-item")
          (Render.tacticHtml0 ++ js "Emotional Manipulation"
           ++ Render.tacticHtml1 ++ js "emotional"
           ++ Render.tacticHtml2 ++ js "EMOTIONAL"
           ++ Render.tacticHtml3
           ++ js "Uses strong emotional language to bypass critical thinking"
           ++ Render.tacticHtml4
           ++ (substring0 100 content ++ js "...")
           ++ Render.tacticHtml5);
        second ].
Proof.
  intros H. cbv zeta. revert H.
  decide_report content; intros H; try discriminate H;
    eexists; vm_compute; reflexivity.
Qed.

(** X22: The class of the share decision keeps every underscore but the first:
    [replace] with a string pattern replaces one occurrence, so
    SHARE_WITH_CONTEXT becomes share-with_context. *)
Theorem share_decision_class (now content : jsstring) :
  let result :=
    Render.displayReportBody unicodeLower ToStringOther lengthIsPositive
      readOfNull notCallable (getDemoAnalysis unicodeUpper now content) in
  Render.writesTo "shareDecision" (fst result)
  = [Render.ClassName "shareDecision"
       (if (70 <? riskScore unicodeUpper content)%Z
        then js "share-decision avoid-sharing"
        else js "share-decision share-with_context")].
Proof.
  cbv zeta. decide_report content; vm_compute; reflexivity.
Qed.

(** X23: With this renderer, "Analysis failed" can only come from a live
    payload: if the error section is visible after a non-empty submission,
    the active endpoint answered the POST with a success status and a body
    that parsed, and the renderer threw on that body. Demo mode and the
    fallback never end in an error. *)
Theorem analysis_failure_needs_live_payload (p : Page) :
  let rendering :=
    Render.rendering unicodeLower ToStringOther lengthIsPositive readOfNull
      notCallable in
  let content := trim (contentInput_value p) in
  let final := run (analyzeContent unicodeUpper network clock rendering) p in
  truthy content = true ->
  errorSection_hidden final = false ->
  exists base r v e,
    activeBackendUrl p = Some base /\
    network (requests (events p)) (analyzeRequest base content) = Responds r /\
    ok r = true /\ json r = JsonResolves v /\
    rendering v = Some e /\
    errorMessage_textContent final = js "Analysis failed: " ++ message e.
Proof.
  cbv zeta. intros H. unfold_handler. cbn. rewrite H. cbn.
  destruct (activeBackendUrl p) as [[|c base]|]; cbn;
    try (rewrite rendering_synthesized; cbn; discriminate).
  destruct (network _ _) as [e | r] eqn:N; cbn;
    [rewrite rendering_synthesized; cbn; discriminate|].
  destruct (ok r) eqn:K; cbn;
    [|rewrite rendering_synthesized; cbn; discriminate].
  destruct (json r) as [e | v] eqn:J; cbn;
    [rewrite rendering_synthesized; cbn; discriminate|].
  destruct (Render.rendering _ _ _ _ _ v) as [e|] eqn:R; cbn;
    [|discriminate].
  intros _. exists (c :: base), r, v, e. repeat split; auto.
Qed.

(** X24: A success response whose body is the JSON value [null]: the renderer
    throws on its first property read, before it has written anything, so
    the page shows "Analysis failed: " with the message of that error next
    to the (stale) results section; there is no fallback to the
    synthesizer. *)
Theorem null_payload_shows_failure (p : Page) (base : jsstring) (r : Response) :
  let rendering :=
    Render.rendering unicodeLower ToStringOther lengthIsPositive readOfNull
      notCallable in
  let content := trim (contentInput_value p) in
  let final := run (analyzeContent unicodeUpper network clock rendering) p in
  truthy content = true ->
  activeBackendUrl p = Some base -> truthy base = true ->
  network (requests (events p)) (analyzeRequest base content) = Responds r ->
  ok r = true -> json r = JsonResolves Null ->
  Render.displayReportBody unicodeLower ToStringOther lengthIsPositive
    readOfNull notCallable Null
  = ([], Throw (readOfNull "analysis_summary")) /\
  displayed (events final) = displayed (events p) ++ [Null] /\
  notifications (events final) = notifications (events p) /\
  errorSection_hidden final = false /\
  resultsSection_hidden final = false /\
  errorMessage_textContent final
  = js "Analysis failed: " ++ message (readOfNull "analysis_summary").
Proof.
  cbv zeta. intros H A B N K J. split; [reflexivity|].
  destruct base as [|c base]; [discriminate|].
  unfold_handler. cbn. rewrite H. cbn. rewrite A. cbn. rewrite N. cbn.
  rewrite K. cbn. rewrite J. cbn. events_simpl. repeat split; reflexivity.
Qed.

End RenderFacts.

(* ================================================================== *)
(** ** What the renderer reads *)
(* ================================================================== *)

Section RenderReads.

Local Open Scope string_scope.
Local Open Scope list_scope.

Variable unicodeLower : jsstring -> jsstring.
Variable ToStringOther : value -> Completion jsstring.
Variable lengthIsPositive : value -> Completion bool.
Variable readOfNull : string -> Error.
Variable notCallable : string -> value -> Error.

Lemma assoc_remove_other (k k' : string) (props : list (string * value)) :
  String.eqb k' k = false -> assoc k (remove k' props) = assoc k props.
Proof.
  intros H. induction props as [|[k0 v] rest IH]; [reflexivity|].
  cbn [remove assoc]. destruct (String.eqb_spec k' k0) as [->|Hk0].
  - rewrite IH. rewrite String.eqb_sym, H. reflexivity.
  - cbn [assoc]. rewrite IH. reflexivity.
Qed.

Lemma assoc_remove_same (k : string) (props : list (string * value)) :
  assoc k (remove k props) = None.
Proof.
  induction props as [|[k0 v] rest IH]; [reflexivity|].
  cbn [remove]. destruct (String.eqb_spec k k0) as [->|Hk0]; [exact IH|].
  cbn [assoc]. destruct (String.eqb_spec k k0); [contradiction | exact IH].
Qed.

Lemma displayReportBody_groups (d1 d2 : value) :
  (forall k, In k Render.groups ->
             Render.property readOfNull k d1 = Render.property readOfNull k d2) ->
  Render.displayReportBody unicodeLower ToStringOther lengthIsPositive
    readOfNull notCallable d1
  = Render.displayReportBody unicodeLower ToStringOther lengthIsPositive
      readOfNull notCallable d2.
Proof.
  intros H.
  unfold Render.displayReportBody, Render.summaryCard, Render.detectedTactics,
    Render.cognitiveBiases, Render.educationalInsights, Render.factCheckFlags,
    Render.recommendations, Render.confidenceMetrics.
  rewrite (H "analysis_summary"), (H "detected_tactics"),
    (H "cognitive_biases"), (H "educational_insights"),
    (H "fact_check_flags"), (H "recommendations"), (H "confidence_metrics")
    by (cbn; tauto).
  reflexivity.
Qed.

(** X25: [displayReport] reads seven properties of [data] and nothing else:
    the [metadata] of a report (time, model, length, source type) never
    reaches the page, and neither does the numeric [risk_score]. The page
    is the same without them. *)
Theorem renderer_shows_neither_metadata_nor_score
        (props summary : list (string * value)) :
  let body :=
    Render.displayReportBody unicodeLower ToStringOther lengthIsPositive
      readOfNull notCallable in
  body (Obj (remove "metadata" props)) = body (Obj props) /\
  (assoc "analysis_summary" props = Some (Obj summary) ->
   body (Obj (Render.setProp "analysis_summary"
                (Obj (remove "risk_score" summary)) props))
   = body (Obj props)).
Proof.
  cbv zeta. split.
  - apply displayReportBody_groups. intros k Hk. cbn [Render.property get].
    rewrite assoc_remove_other; [reflexivity|].
    cbn in Hk. repeat (destruct Hk as [<- | Hk]; [reflexivity|]).
    destruct Hk.
  - intros Hs.
    unfold Render.displayReportBody. f_equal.
    + unfold Render.summaryCard, Render.setProp.
      cbn [Render.property get assoc String.eqb Ascii.eqb Bool.eqb].
      rewrite Hs. cbn [Render.bind Render.ret Render.orElse Render.ToBoolean
                         Render.property get app].
      rewrite !assoc_remove_other by reflexivity. reflexivity.
    + assert (G : forall k, String.eqb "analysis_summary" k = false ->
                  Render.property readOfNull k
                    (Obj (Render.setProp "analysis_summary"
                            (Obj (remove "risk_score" summary)) props))
                  = Render.property readOfNull k (Obj props)).
      { intros k Hk. unfold Render.setProp. cbn [Render.property get assoc].
        rewrite String.eqb_sym, Hk. rewrite assoc_remove_other by exact Hk.
        reflexivity. }
      unfold Render.detectedTactics, Render.cognitiveBiases,
        Render.educationalInsights, Render.factCheckFlags,
        Render.recommendations, Render.confidenceMetrics.
      rewrite !G by reflexivity. reflexivity.
Qed.

(** X26: [displayReport] does not need its groups: on any value but [null]
    that has none of the seven properties (the empty object, a number, a
    string) it does not throw and fills the page with its defaults:
    UNKNOWN, "Not provided", the placeholder for an empty tactics list, a
    hidden fact-check section, 0%. *)
Theorem renderer_tolerates_missing_groups (data : value) :
  data <> Null ->
  (forall k, In k Render.groups -> get k data = None) ->
  let result :=
    Render.displayReportBody unicodeLower ToStringOther lengthIsPositive
      readOfNull notCallable data in
  snd result = Normal tt /\
  Render.writesTo "riskLevelText" (fst result)
  = [Render.TextContent "riskLevelText" (js "UNKNOWN")] /\
  Render.writesTo "primaryConcern" (fst result)
  = [Render.TextContent "primaryConcern" (js "Not provided")] /\
  Render.writesTo "detectedTactics" (fst result)
  = [Render.InnerHTML "detectedTactics" [];
     Render.InnerHTML "detectedTactics" Render.noTacticsHtml] /\
  Render.writesTo "factCheckSection" (fst result)
  = [Render.ClassListAdd "factCheckSection" (js "hidden")] /\
  Render.writesTo "analysisConfidenceText" (fst result)
  = [Render.TextContent "analysisConfidenceText" (js "0%")].
Proof.
  intros Hnull Hnone. cbv zeta.
  rewrite (displayReportBody_groups data (Obj [])).
  - vm_compute. repeat split.
  - intros k Hk. specialize (Hnone k Hk).
    destruct data; try contradiction; cbn [Render.property]; rewrite Hnone;
      reflexivity.
Qed.

End RenderReads.

(* ================================================================== *)
(** ** The schema is enough for the renderer *)
(* ================================================================== *)

Section RenderSchema.

Local Open Scope string_scope.
Local Open Scope list_scope.

Variable unicodeLower : jsstring -> jsstring.
Variable ToStringOther : value -> Completion jsstring.
Variable lengthIsPositive : value -> Completion bool.
Variable readOfNull : string -> Error.
Variable notCallable : string -> value -> Error.

Lemma isStr_inv (v : value) : isStr v = true -> exists s, v = Str s.
Proof. destruct v; try discriminate. eauto. Qed.

(** A string field of an item: the text may be empty or not. *)
Ltac string_field H :=
  let s := fresh "s" in
  destruct (isStr_inv _ H) as (s & ->); destruct s.

Lemma isEnum_isStr (names : list string) (v : value) :
  Spec.isEnum names v = true -> isStr v = true.
Proof. destruct v; try discriminate. reflexivity. Qed.

Lemma listOf_inv (item : value -> bool) (v : value) :
  Spec.listOf item v = true ->
  exists items, v = Arr items /\ forallb item items = true.
Proof. destruct v; try discriminate. eauto. Qed.

Lemma record_inv (fields : list (string * (value -> bool))) (v : value) :
  Spec.record fields v = true ->
  exists props,
    v = Obj props /\
    forall k chk, In (k, chk) fields ->
                  exists x, assoc k props = Some x /\ chk x = true.
Proof.
  destruct v as [| | | | |props]; try discriminate. cbn [Spec.record].
  intros H. apply andb_true_iff in H. destruct H as [H _].
  exists props. split; [reflexivity|]. intros k chk Hin.
  rewrite forallb_forall in H. specialize (H (k, chk) Hin). cbn in H.
  destruct (assoc k props) as [x|]; [eauto | discriminate].
Qed.

Lemma snd_bind {A B : Type} {c : Render.W A} (k : A -> Render.W B) {a : A} :
  snd c = Normal a -> snd (Render.bind c k) = snd (k a).
Proof.
  destruct c as [w r]. cbn. intros ->. destruct (k a). reflexivity.
Qed.

Lemma forEachItem_normal (f : value -> Render.W unit) (items : list value) :
  (forall item, In item items -> snd (f item) = Normal tt) ->
  snd (Render.forEachItem f items) = Normal tt.
Proof.
  induction items as [|item rest IH]; intros H; [reflexivity|].
  cbn [Render.forEachItem]. rewrite (snd_bind _ (H item (or_introl eq_refl))).
  apply IH. intros x Hx. apply H. right. exact Hx.
Qed.

Lemma itemList_normal (f : value -> Render.W unit) (placeholder : Render.W unit)
      (chk : value -> bool) (x : value) :
  Spec.listOf chk x = true ->
  snd placeholder = Normal tt ->
  (forall item, chk item = true -> snd (f item) = Normal tt) ->
  snd (Render.bind (Render.hasItems lengthIsPositive (Some x))
         (fun some => if some
                      then Render.forEach readOfNull notCallable (Some x) f
                      else placeholder))
  = Normal tt.
Proof.
  intros Hx Hp Hf. destruct (listOf_inv _ _ Hx) as (items & -> & Hall).
  rewrite forallb_forall in Hall.
  destruct items as [|item rest]; cbn; [destruct placeholder; exact Hp|].
  destruct (Render.bind (f item) _) eqn:E.
  assert (S : snd (Render.bind (f item)
                     (fun _ => Render.forEachItem f rest)) = Normal tt).
  { apply (forEachItem_normal f (item :: rest)).
    intros y Hy. apply Hf, Hall, Hy. }
  rewrite E in S. exact S.
Qed.

Lemma tacticItem_normal (tactic : value) :
  Spec.tacticSchema tactic = true ->
  snd (Render.tacticItem unicodeLower ToStringOther readOfNull notCallable tactic)
  = Normal tt.
Proof.
  intros H. destruct (record_inv _ _ H) as (props & -> & F).
  destruct (F "tactic_name" isStr) as (a & Ea & Ha); [cbn; tauto|].
  destruct (F "description" isStr) as (b & Eb & Hb); [cbn; tauto|].
  destruct (F "example_from_content" isStr) as (c & Ec & Hc); [cbn; tauto|].
  destruct (F "manipulation_type"
              (Spec.isEnum ["EMOTIONAL"; "SOCIAL"; "LOGICAL"]))
    as (d & Ed & Hd); [cbn; tauto|].
  apply isEnum_isStr in Hd.
  unfold Render.tacticItem, Render.textOf. cbn [Render.property get].
  rewrite Ea, Eb, Ec, Ed.
  string_field Ha; string_field Hb; string_field Hc; string_field Hd;
    reflexivity.
Qed.

Lemma biasItem_normal (bias : value) :
  Spec.biasSchema bias = true ->
  snd (Render.biasItem ToStringOther readOfNull bias) = Normal tt.
Proof.
  intros H. destruct (record_inv _ _ H) as (props & -> & F).
  destruct (F "bias_name" isStr) as (a & Ea & Ha); [cbn; tauto|].
  destruct (F "explanation" isStr) as (b & Eb & Hb); [cbn; tauto|].
  destruct (F "how_its_exploited" isStr) as (c & Ec & Hc); [cbn; tauto|].
  destruct (F "resistance_tip" isStr) as (d & Ed & Hd); [cbn; tauto|].
  unfold Render.biasItem, Render.textOf. cbn [Render.property get].
  rewrite Ea, Eb, Ec, Ed.
  string_field Ha; string_field Hb; string_field Hc; string_field Hd;
    reflexivity.
Qed.

Lemma flagItem_normal (flag : value) :
  Spec.flagSchema flag = true ->
  snd (Render.flagItem ToStringOther readOfNull flag) = Normal tt.
Proof.
  intros H. destruct (record_inv _ _ H) as (props & -> & F).
  destruct (F "claim" isStr) as (a & Ea & Ha); [cbn; tauto|].
  destruct (F "flag_reason" isStr) as (b & Eb & Hb); [cbn; tauto|].
  destruct (F "verification_suggestion" isStr) as (c & Ec & Hc); [cbn; tauto|].
  unfold Render.flagItem, Render.textOf. cbn [Render.property get].
  rewrite Ea, Eb, Ec.
  string_field Ha; string_field Hb; string_field Hc; reflexivity.
Qed.

Lemma plainList_normal (id key : string) (props : list (string * value))
      (x : value) :
  assoc key props = Some x -> Spec.listOf isStr x = true ->
  snd (Render.plainList ToStringOther lengthIsPositive readOfNull notCallable
         id key (Obj props)) = Normal tt.
Proof.
  intros E Hx. unfold Render.plainList.
  cbn [Render.write Render.bind Render.property get Render.ret].
  rewrite E.
  pose proof (itemList_normal
                (fun item =>
                   Render.bind
                     match item with
                     | Null => Render.ret []
                     | _ => Render.ToString ToStringOther item
                     end
                     (fun text => Render.write (Render.AppendLi id text)))
                (Render.ret tt) isStr x Hx eq_refl) as L.
  destruct (Render.bind (Render.hasItems lengthIsPositive (Some x)) _) eqn:B.
  cbn. cbn in L. apply L.
  intros item Hi. destruct (isStr_inv _ Hi) as (s & ->). reflexivity.
Qed.

Lemma summaryCard_normal (props : list (string * value)) (summary : value) :
  assoc "analysis_summary" props = Some summary ->
  Spec.summarySchema summary = true ->
  snd (Render.summaryCard unicodeLower ToStringOther readOfNull notCallable
         (Obj props)) = Normal tt.
Proof.
  intros E H. destruct (record_inv _ _ H) as (sp & -> & F).
  destruct (F "risk_level" (Spec.isEnum ["LOW"; "MEDIUM"; "HIGH"]))
    as (a & Ea & Ha); [cbn; tauto|].
  destruct (F "credibility_rating" (Spec.isEnum ["RELIABLE"; "QUESTIONABLE"]))
    as (b & Eb & Hb); [cbn; tauto|].
  destruct (F "primary_concern" isStr) as (c & Ec & Hc); [cbn; tauto|].
  apply isEnum_isStr in Ha, Hb.
  unfold Render.summaryCard. cbn [Render.property get]. rewrite E.
  cbn [Render.bind Render.ret Render.orElse Render.ToBoolean Render.property
         get app].
  rewrite Ea, Eb, Ec.
  string_field Ha; string_field Hb; string_field Hc; reflexivity.
Qed.

Lemma detectedTactics_normal (props : list (string * value)) (x : value) :
  assoc "detected_tactics" props = Some x ->
  Spec.listOf Spec.tacticSchema x = true ->
  snd (Render.detectedTactics unicodeLower ToStringOther lengthIsPositive
         readOfNull notCallable (Obj props)) = Normal tt.
Proof.
  intros E Hx. unfold Render.detectedTactics.
  cbn [Render.write Render.bind Render.property get Render.ret].
  rewrite E.
  pose proof (itemList_normal
                (Render.tacticItem unicodeLower ToStringOther readOfNull
                   notCallable)
                (Render.write
                   (Render.InnerHTML "detectedTactics" Render.noTacticsHtml))
                Spec.tacticSchema x Hx eq_refl tacticItem_normal) as L.
  destruct (Render.bind (Render.hasItems lengthIsPositive (Some x)) _).
  exact L.
Qed.

Lemma cognitiveBiases_normal (props : list (string * value)) (x : value) :
  assoc "cognitive_biases" props = Some x ->
  Spec.listOf Spec.biasSchema x = true ->
  snd (Render.cognitiveBiases ToStringOther lengthIsPositive readOfNull
         notCallable (Obj props)) = Normal tt.
Proof.
  intros E Hx. unfold Render.cognitiveBiases.
  cbn [Render.write Render.bind Render.property get Render.ret].
  rewrite E.
  pose proof (itemList_normal
                (Render.biasItem ToStringOther readOfNull)
                (Render.write
                   (Render.InnerHTML "cognitiveBiases" Render.noBiasesHtml))
                Spec.biasSchema x Hx eq_refl biasItem_normal) as L.
  destruct (Render.bind (Render.hasItems lengthIsPositive (Some x)) _).
  exact L.
Qed.

Lemma factCheckFlags_normal (props : list (string * value)) (x : value) :
  assoc "fact_check_flags" props = Some x ->
  Spec.listOf Spec.flagSchema x = true ->
  snd (Render.factCheckFlags ToStringOther lengthIsPositive readOfNull
         notCallable (Obj props)) = Normal tt.
Proof.
  intros E Hx. unfold Render.factCheckFlags.
  cbn [Render.write Render.bind Render.property get Render.ret].
  rewrite E. destruct (listOf_inv _ _ Hx) as (items & -> & Hall).
  rewrite forallb_forall in Hall.
  destruct items as [|item rest]; [reflexivity|].
  cbn [Render.hasItems Render.ToBoolean Render.ret Render.bind Render.write
         Render.forEach].
  pose proof (forEachItem_normal (Render.flagItem ToStringOther readOfNull)
                (item :: rest)
                (fun y Hy => flagItem_normal y (Hall y Hy))) as L.
  destruct (Render.forEachItem _ (item :: rest)). exact L.
Qed.

Lemma educationalInsights_normal (props : list (string * value))
      (insights : value) :
  assoc "educational_insights" props = Some insights ->
  Spec.insightsSchema insights = true ->
  snd (Render.educationalInsights ToStringOther lengthIsPositive readOfNull
         notCallable (Obj props)) = Normal tt.
Proof.
  intros E H. destruct (record_inv _ _ H) as (ip & -> & F).
  destruct (F "why_convincing" isStr) as (a & Ea & Ha); [cbn; tauto|].
  destruct (F "target_audience" isStr) as (b & Eb & Hb); [cbn; tauto|].
  destruct (F "psychological_appeal" isStr) as (c & Ec & Hc); [cbn; tauto|].
  destruct (F "critical_questions" (Spec.listOf isStr)) as (q & Eq & Hq);
    [cbn; tauto|].
  destruct (F "verification_steps" (Spec.listOf isStr)) as (v & Ev & Hv);
    [cbn; tauto|].
  pose proof (plainList_normal "criticalQuestions" "critical_questions" ip
                Eq Hq) as Lq.
  pose proof (plainList_normal "verificationSteps" "verification_steps" ip
                Ev Hv) as Lv.
  unfold Render.educationalInsights. cbn [Render.property get]. rewrite E.
  cbn [Render.bind Render.ret Render.orElse Render.ToBoolean Render.property
         get app].
  rewrite Ea, Eb, Ec.
  destruct (Render.plainList _ _ _ _ "criticalQuestions" _ _) as [wq rq].
  destruct (Render.plainList _ _ _ _ "verificationSteps" _ _) as [wv rv].
  cbn in Lq, Lv. subst rq rv.
  string_field Ha; string_field Hb; string_field Hc; reflexivity.
Qed.

Lemma recommendations_normal (props : list (string * value)) (recs : value) :
  assoc "recommendations" props = Some recs ->
  Spec.recommendationsSchema recs = true ->
  snd (Render.recommendations unicodeLower ToStringOther lengthIsPositive
         readOfNull notCallable (Obj props)) = Normal tt.
Proof.
  intros E H. destruct (record_inv _ _ H) as (rp & -> & F).
  destruct (F "immediate_action" isStr) as (a & Ea & Ha); [cbn; tauto|].
  destruct (F "share_decision"
              (Spec.isEnum ["AVOID_SHARING"; "SHARE_WITH_CONTEXT"]))
    as (b & Eb & Hb); [cbn; tauto|].
  destruct (F "learning_opportunity" isStr) as (c & Ec & Hc); [cbn; tauto|].
  destruct (F "further_research" (Spec.listOf isStr)) as (q & Eq & Hq);
    [cbn; tauto|].
  apply isEnum_isStr in Hb.
  pose proof (plainList_normal "furtherResearch" "further_research" rp
                Eq Hq) as Lq.
  unfold Render.recommendations. cbn [Render.property get]. rewrite E.
  cbn [Render.bind Render.ret Render.orElse Render.ToBoolean Render.property
         get app].
  rewrite Ea, Eb, Ec.
  destruct (Render.plainList _ _ _ _ "furtherResearch" _ _) as [wq rq].
  cbn in Lq. subst rq.
  string_field Ha; string_field Hb; string_field Hc; reflexivity.
Qed.

Lemma percentage_normal (n : Z) :
  (0 <= n <= 100)%Z ->
  exists text,
    Render.ToString ToStringOther (Render.orElse (Some (Num n)) (Num 0))
    = ([], Normal text).
Proof.
  intros H. unfold Render.orElse, Render.ToBoolean.
  destruct (n =? 0)%Z; cbn [negb Render.ToString].
  - eexists. reflexivity.
  - destruct (Z.leb_spec (Z.abs n) (2 ^ 53)) as [_ | L].
    + eexists. reflexivity.
    + exfalso. change (2 ^ 53)%Z with 9007199254740992%Z in L. lia.
Qed.

Lemma isInt_inv (lo hi : Z) (v : value) :
  Spec.isInt lo hi v = true -> exists n, v = Num n /\ (lo <= n <= hi)%Z.
Proof.
  destruct v; try discriminate. cbn. intros H.
  apply andb_true_iff in H. destruct H as [A B].
  apply Z.leb_le in A, B. eauto.
Qed.

Lemma confidenceMetrics_normal (props : list (string * value))
      (metrics : value) :
  assoc "confidence_metrics" props = Some metrics ->
  Spec.metricsSchema metrics = true ->
  snd (Render.confidenceMetrics unicodeLower ToStringOther readOfNull
         notCallable (Obj props)) = Normal tt.
Proof.
  intros E H. destruct (record_inv _ _ H) as (mp & -> & F).
  destruct (F "analysis_confidence" (Spec.isInt 0 100)) as (a & Ea & Ha);
    [cbn; tauto|].
  destruct (F "data_completeness" (Spec.isInt 0 100)) as (b & Eb & Hb);
    [cbn; tauto|].
  destruct (F "context_availability"
              (Spec.isEnum ["PARTIAL"; "FULL"; "NONE"]))
    as (c & Ec & Hc); [cbn; tauto|].
  apply isEnum_isStr in Hc.
  destruct (isInt_inv _ _ _ Ha) as (n & -> & Rn).
  destruct (isInt_inv _ _ _ Hb) as (m & -> & Rm).
  destruct (percentage_normal Rn) as (tn & Tn).
  destruct (percentage_normal Rm) as (tm & Tm).
  unfold Render.confidenceMetrics. cbn [Render.property get]. rewrite E.
  cbn [Render.bind Render.ret Render.orElse Render.ToBoolean Render.property
         get app].
  rewrite Ea, Eb, Ec.
  cbn [Render.bind Render.ret app]. rewrite Tn, Tm.
  string_field Hc; reflexivity.
Qed.

(** X27: The schema is enough for the renderer: on every value that conforms
    to the Report schema, [displayReport] runs to its end without an
    exception, whatever the strings, the numbers and the lengths of the
    lists are. *)
Theorem renderer_accepts_conforming_reports (report : value) :
  Spec.ReportSchema report = true ->
  snd (Render.displayReportBody unicodeLower ToStringOther lengthIsPositive
         readOfNull notCallable report) = Normal tt.
Proof.
  intros H. destruct (record_inv _ _ H) as (props & -> & F).
  destruct (F "analysis_summary" Spec.summarySchema) as (a & Ea & Ha);
    [cbn; tauto|].
  destruct (F "detected_tactics" (Spec.listOf Spec.tacticSchema))
    as (b & Eb & Hb); [cbn; tauto|].
  destruct (F "cognitive_biases" (Spec.listOf Spec.biasSchema))
    as (c & Ec & Hc); [cbn; tauto|].
  destruct (F "fact_check_flags" (Spec.listOf Spec.flagSchema))
    as (d & Ed & Hd); [cbn; tauto|].
  destruct (F "educational_insights" Spec.insightsSchema) as (e & Ee & He);
    [cbn; tauto|].
  destruct (F "recommendations" Spec.recommendationsSchema) as (f & Ef & Hf);
    [cbn; tauto|].
  destruct (F "confidence_metrics" Spec.metricsSchema) as (g & Eg & Hg);
    [cbn; tauto|].
  unfold Render.displayReportBody.
  rewrite (snd_bind _ (summaryCard_normal props Ea Ha)).
  rewrite (snd_bind _ (detectedTactics_normal props Eb Hb)).
  rewrite (snd_bind _ (cognitiveBiases_normal props Ec Hc)).
  rewrite (snd_bind _ (educationalInsights_normal props Ee He)).
  rewrite (snd_bind _ (factCheckFlags_normal props Ed Hd)).
  rewrite (snd_bind _ (recommendations_normal props Ef Hf)).
  exact (confidenceMetrics_normal props Eg Hg).
Qed.

End RenderSchema.

(* ================================================================== *)
(** ** The renderer of [script.js] *)
(* ================================================================== *)

(** A field that the schema makes one of a few names: it is a string, and
    not the empty one. *)
Ltac enum_field H :=
  let s := fresh "s" in
  let H' := fresh "H" in
  pose proof (isEnum_isStr _ _ H) as H';
  destruct (isStr_inv _ H') as (s & ->); clear H';
  destruct s; [vm_compute in H; discriminate H|].

Ltac text_field H :=
  let s := fresh "s" in
  destruct (isStr_inv _ H) as (s & ->); destruct s.

Section LegacyRenderFacts.

Local Open Scope string_scope.
Local Open Scope list_scope.

Variable unicodeLower : jsstring -> jsstring.
Variable ToStringOther : value -> Completion jsstring.
Variable lengthIsPositive : value -> Completion bool.
Variable readOfNull : string -> Error.
Variable readOfUndefined : string -> Error.
Variable notCallable : string -> value -> Error.

Lemma snd_bind_inv {A B : Type} (c : Render.W A) (k : A -> Render.W B) (b : B) :
  snd (Render.bind c k) = Normal b ->
  exists a, snd c = Normal a /\ snd (k a) = Normal b.
Proof.
  destruct c as [w [a | e]]; cbn; [|discriminate].
  destruct (k a) as [w' r] eqn:E. cbn. intros ->. exists a.
  rewrite E. auto.
Qed.

Lemma group_read_normal (key field : string) (data : value) (B : Type)
      (k : option value -> option value -> Render.W B) (b : B) :
  snd (Render.bind (Render.property readOfNull key data)
         (fun group =>
            Render.bind (RenderLegacy.propertyOf readOfNull readOfUndefined
                           field group) (k group)))
  = Normal b ->
  get key data <> None.
Proof.
  intros H E. destruct data; cbn in H; try discriminate;
    cbn in E; try rewrite E in H; cbn in H; discriminate.
Qed.

(** X28: The older [displayReport] needs its four groups: when [data] lacks
    [analysis_summary], [educational_insights], [recommendations] or
    [confidence_metrics], the function ends in an exception (the
    [TypeError] of a property read on [undefined], unless something threw
    before). *)
Theorem legacy_renderer_needs_its_groups (data : value) :
  get "analysis_summary" data = None \/
  get "educational_insights" data = None \/
  get "recommendations" data = None \/
  get "confidence_metrics" data = None ->
  exists e,
    snd (RenderLegacy.displayReportBody unicodeLower ToStringOther
           lengthIsPositive readOfNull readOfUndefined notCallable data)
    = Throw e.
Proof.
  intros Hmissing.
  destruct (snd (RenderLegacy.displayReportBody _ _ _ _ _ _ data))
    as [[] | e] eqn:S; [exfalso | eauto].
  unfold RenderLegacy.displayReportBody in S.
  apply snd_bind_inv in S. destruct S as ([] & S1 & S).
  apply snd_bind_inv in S. destruct S as ([] & _ & S).
  apply snd_bind_inv in S. destruct S as ([] & _ & S).
  apply snd_bind_inv in S. destruct S as ([] & S4 & S).
  apply snd_bind_inv in S. destruct S as ([] & _ & S).
  apply snd_bind_inv in S. destruct S as ([] & S6 & S7).
  unfold RenderLegacy.summaryCard in S1.
  unfold RenderLegacy.educationalInsights in S4.
  unfold RenderLegacy.recommendations in S6.
  unfold RenderLegacy.confidenceMetrics in S7.
  apply group_read_normal in S1, S4, S6, S7. tauto.
Qed.

Lemma plainListOf_plainList (id key : string) (owner : value) :
  RenderLegacy.plainListOf ToStringOther lengthIsPositive readOfNull
    readOfUndefined notCallable id key (Some owner)
  = Render.plainList ToStringOther lengthIsPositive readOfNull notCallable
      id key owner.
Proof. reflexivity. Qed.

Lemma summaryCard_agree (props : list (string * value)) (summary : value) :
  assoc "analysis_summary" props = Some summary ->
  Spec.summarySchema summary = true ->
  RenderLegacy.summaryCard unicodeLower ToStringOther readOfNull
    readOfUndefined notCallable (Obj props)
  = Render.summaryCard unicodeLower ToStringOther readOfNull notCallable
      (Obj props).
Proof.
  intros E H. destruct (record_inv _ _ H) as (sp & -> & F).
  destruct (F "risk_level" (Spec.isEnum ["LOW"; "MEDIUM"; "HIGH"]))
    as (a & Ea & Ha); [cbn; tauto|].
  destruct (F "credibility_rating" (Spec.isEnum ["RELIABLE"; "QUESTIONABLE"]))
    as (b & Eb & Hb); [cbn; tauto|].
  destruct (F "primary_concern" isStr) as (c & Ec & Hc); [cbn; tauto|].
  unfold RenderLegacy.summaryCard, Render.summaryCard,
    RenderLegacy.propertyOf.
  cbn [Render.property get]. rewrite E.
  cbn [Render.bind Render.ret Render.orElse Render.ToBoolean Render.property
         get app].
  rewrite Ea, Eb, Ec.
  enum_field Ha; enum_field Hb; text_field Hc; reflexivity.
Qed.

Lemma educationalInsights_agree (props : list (string * value))
      (insights : value) :
  assoc "educational_insights" props = Some insights ->
  Spec.insightsSchema insights = true ->
  RenderLegacy.educationalInsights ToStringOther lengthIsPositive readOfNull
    readOfUndefined notCallable (Obj props)
  = Render.educationalInsights ToStringOther lengthIsPositive readOfNull
      notCallable (Obj props).
Proof.
  intros E H. destruct (record_inv _ _ H) as (ip & -> & F).
  unfold RenderLegacy.educationalInsights, Render.educationalInsights,
    RenderLegacy.propertyOf.
  cbn [Render.property get]. rewrite E.
  cbn [Render.bind Render.ret Render.orElse Render.ToBoolean Render.property
         get app].
  rewrite !plainListOf_plainList. reflexivity.
Qed.

Lemma recommendations_agree (props : list (string * value)) (recs : value) :
  assoc "recommendations" props = Some recs ->
  Spec.recommendationsSchema recs = true ->
  RenderLegacy.recommendations unicodeLower ToStringOther lengthIsPositive
    readOfNull readOfUndefined notCallable (Obj props)
  = Render.recommendations unicodeLower ToStringOther lengthIsPositive
      readOfNull notCallable (Obj props).
Proof.
  intros E H. destruct (record_inv _ _ H) as (rp & -> & F).
  unfold RenderLegacy.recommendations, Render.recommendations,
    RenderLegacy.propertyOf.
  cbn [Render.property get]. rewrite E.
  cbn [Render.bind Render.ret Render.orElse Render.ToBoolean Render.property
         get app].
  rewrite !plainListOf_plainList. reflexivity.
Qed.

Lemma percentage_agree (n : Z) :
  RenderLegacy.substitution ToStringOther (Some (Num n))
  = Render.ToString ToStringOther (Render.orElse (Some (Num n)) (Num 0)).
Proof.
  unfold RenderLegacy.substitution, Render.orElse, Render.ToBoolean.
  destruct (Z.eqb_spec n 0) as [-> | _]; reflexivity.
Qed.

Lemma confidenceMetrics_agree (props : list (string * value))
      (metrics : value) :
  assoc "confidence_metrics" props = Some metrics ->
  Spec.metricsSchema metrics = true ->
  RenderLegacy.confidenceMetrics unicodeLower ToStringOther readOfNull
    readOfUndefined notCallable (Obj props)
  = Render.confidenceMetrics unicodeLower ToStringOther readOfNull
      notCallable (Obj props).
Proof.
  intros E H. destruct (record_inv _ _ H) as (mp & -> & F).
  destruct (F "analysis_confidence" (Spec.isInt 0 100)) as (a & Ea & Ha);
    [cbn; tauto|].
  destruct (F "data_completeness" (Spec.isInt 0 100)) as (b & Eb & Hb);
    [cbn; tauto|].
  destruct (F "context_availability"
              (Spec.isEnum ["PARTIAL"; "FULL"; "NONE"]))
    as (c & Ec & Hc); [cbn; tauto|].
  destruct (isInt_inv _ _ _ Ha) as (n & -> & Rn).
  destruct (isInt_inv _ _ _ Hb) as (m & -> & Rm).
  destruct (@percentage_normal ToStringOther n Rn) as (tn & Tn).
  destruct (@percentage_normal ToStringOther m Rm) as (tm & Tm).
  unfold RenderLegacy.confidenceMetrics, Render.confidenceMetrics,
    RenderLegacy.propertyOf.
  cbn [Render.property get]. rewrite E.
  cbn [Render.bind Render.ret Render.orElse Render.ToBoolean Render.property
         get app].
  rewrite Ea, Eb, Ec.
  cbn [Render.bind Render.ret app]. rewrite !percentage_agree, Tn, Tm.
  enum_field Hc. reflexivity.
Qed.

(** X29: "Same as original": on every value that conforms to the Report schema
    the two versions of [displayReport] make the same writes and end the
    same way. The defaults of the newer one only matter for reports that
    do not conform. *)
Theorem renderers_agree_on_conforming_reports (report : value) :
  Spec.ReportSchema report = true ->
  RenderLegacy.displayReportBody unicodeLower ToStringOther lengthIsPositive
    readOfNull readOfUndefined notCallable report
  = Render.displayReportBody unicodeLower ToStringOther lengthIsPositive
      readOfNull notCallable report.
Proof.
  intros H. destruct (record_inv _ _ H) as (props & -> & F).
  destruct (F "analysis_summary" Spec.summarySchema) as (a & Ea & Ha);
    [cbn; tauto|].
  destruct (F "educational_insights" Spec.insightsSchema) as (e & Ee & He);
    [cbn; tauto|].
  destruct (F "recommendations" Spec.recommendationsSchema) as (f & Ef & Hf);
    [cbn; tauto|].
  destruct (F "confidence_metrics" Spec.metricsSchema) as (g & Eg & Hg);
    [cbn; tauto|].
  unfold RenderLegacy.displayReportBody, Render.displayReportBody.
  rewrite (summaryCard_agree props Ea Ha),
    (educationalInsights_agree props Ee He),
    (recommendations_agree props Ef Hf),
    (confidenceMetrics_agree props Eg Hg).
  reflexivity.
Qed.

End LegacyRenderFacts.

(* ================================================================== *)
(** ** Worked runs of the further properties *)
(* ================================================================== *)

Section MoreRuns.

Local Open Scope string_scope.
Local Open Scope list_scope.

(** A short content with a trigger word is quoted whole. *)
Lemma quoted_example_is_bounded_witness :
  hasEmotionalWords Sample.upperId (js "a secret") = true /\
  exists first others,
    get "detected_tactics"
        (getDemoAnalysis Sample.upperId (js "t") (js "a secret"))
    = Some (Arr (first :: others)) /\
    get "example_from_content" first = Some (Str (js "a secret...")).
Proof.
  split; [reflexivity|].
  destruct (@quoted_example_is_bounded Sample.upperId (js "t") (js "a secret")
              eq_refl) as (first & others & example & D & E & _ & W).
  exists first, others. split; [exact D|].
  rewrite E, W; [reflexivity|]. vm_compute. discriminate.
Defined.

(** The local server answers the POST with the body [null]: the results
    section is shown although the renderer throws. *)
Lemma render_outcome_decides_error_witness :
  let p := set_activeBackendUrl (Some Sample.localhost) (initialPage (js "hello")) in
  let final :=
    run (analyzeContent Sample.upperId SampleRender.nullNetwork Sample.clock
           SampleRender.rendering) p in
  truthy (trim (contentInput_value p)) = true /\
  resultsSection_hidden final = false.
Proof.
  cbv zeta. split; [reflexivity|].
  exact (proj1 (@render_outcome_decides_error Sample.upperId
                  SampleRender.nullNetwork Sample.clock SampleRender.rendering
                  (set_activeBackendUrl (Some Sample.localhost)
                     (initialPage (js "hello")))
                  eq_refl)).
Defined.

(** A freshly loaded page without endpoint: nothing is sent. *)
Lemma demo_mode_without_endpoint_witness :
  let p := initialPage (js " hello ") in
  let final :=
    run (analyzeContent Sample.upperId Sample.htmlNetwork Sample.clock
           Sample.rendering) p in
  truthy (trim (contentInput_value p)) = true /\
  requests (events final) = [] /\
  notifications (events final) = [js "Running in demo mode"].
Proof.
  cbv zeta. split; [reflexivity|].
  destruct (@demo_mode_without_endpoint Sample.upperId Sample.htmlNetwork
              Sample.clock Sample.rendering (initialPage (js " hello "))
              eq_refl eq_refl) as (R & _ & N).
  split; [exact R | exact N].
Defined.

(** The script's four candidates with no host up. *)
Lemma offline_session_witness :
  let loaded :=
    run (checkBackendConnection Sample.deadNetwork backendUrls)
        (initialPage (js "hello")) in
  let final :=
    run (analyzeContent Sample.upperId Sample.deadNetwork Sample.clock
           Sample.rendering) loaded in
  Spec.allUnreachable Sample.deadNetwork [] backendUrls /\
  requests (events final) = List.map probeRequest backendUrls.
Proof.
  cbv zeta.
  assert (H : Spec.allUnreachable Sample.deadNetwork [] backendUrls)
    by (cbn; repeat split).
  split; [exact H|].
  exact (proj1 (@offline_session Sample.upperId Sample.deadNetwork Sample.clock
                  Sample.rendering backendUrls (js "hello") H eq_refl)).
Defined.

(** The script's four candidates with only the local server up: three
    probes, then the POST to the local server. *)
Lemma connected_session_witness :
  let loaded :=
    run (checkBackendConnection Sample.localNetwork backendUrls)
        (initialPage (js "hello")) in
  let final :=
    run (analyzeContent Sample.upperId Sample.localNetwork Sample.clock
           Sample.rendering) loaded in
  Spec.reachable Sample.localNetwork
    (List.map probeRequest [Sample.render; Sample.railway]) Sample.localhost
  = true /\
  requests (events final)
  = List.map probeRequest [Sample.render; Sample.railway; Sample.localhost]
    ++ [analyzeRequest Sample.localhost (js "hello")].
Proof.
  cbv zeta. split; [reflexivity|].
  assert (H : Spec.allUnreachable Sample.localNetwork []
                [Sample.render; Sample.railway])
    by (cbn; repeat split).
  exact (proj2 (@connected_session Sample.upperId Sample.localNetwork
                  Sample.clock Sample.rendering
                  [Sample.render; Sample.railway] Sample.localhost
                  [Sample.cloudRun] (js "hello") H eq_refl eq_refl eq_refl)).
Defined.

(** The older handler renders a parsed success body, here [{}]. *)
Lemma legacy_renders_only_parsed_success_witness :
  let p := initialPage (js "hello") in
  let final :=
    run (ScriptJs.submitHandler SampleRender.emptyObjectNetwork
           Sample.rendering Sample.ToString Sample.nullPropertyError) p in
  truthy (trim (contentInput_value p)) = true /\
  displayed (events final) = [Obj []].
Proof.
  cbv zeta. split; [reflexivity|].
  exact (@legacy_renders_only_parsed_success SampleRender.emptyObjectNetwork
           Sample.rendering Sample.ToString Sample.nullPropertyError
           (initialPage (js "hello")) eq_refl).
Defined.

(** The older handler with no host up shows the network error. *)
Lemma legacy_error_messages_witness :
  let p := initialPage (js "hello") in
  let final :=
    run (ScriptJs.submitHandler Sample.deadNetwork Sample.rendering
           Sample.ToString Sample.nullPropertyError) p in
  truthy (trim (contentInput_value p)) = true /\
  errorMessage_textContent final = js "Failed to fetch" /\
  errorSection_hidden final = false.
Proof.
  cbv zeta. split; [reflexivity|].
  exact (proj1 (@legacy_error_messages Sample.deadNetwork Sample.rendering
                  Sample.ToString Sample.nullPropertyError
                  (initialPage (js "hello")) eq_refl)
               (mkError (js "Failed to fetch")) eq_refl).
Defined.

(** Markup typed by the user reaches [innerHTML] as markup. *)
Lemma quoted_content_enters_markup_unescaped_witness :
  let content := js "<img src=x onerror=alert(1)> secret" in
  let result :=
    Render.displayReportBody SampleRender.unicodeLower
      SampleRender.ToStringOther SampleRender.lengthIsPositive
      SampleRender.readOfNull SampleRender.notCallable
      (getDemoAnalysis Sample.upperId (js "t") content) in
  hasEmotionalWords Sample.upperId content = true /\
  exists before after rest,
    Render.writesTo "detectedTactics" (fst result)
    = Render.InnerHTML "detectedTactics" []
      :: Render.AppendDiv "detectedTactics" (js "tactic-item")
           (before ++ js "<img src=x onerror=alert(1)> secret..." ++ after)
      :: rest.
Proof.
  cbv zeta. split; [reflexivity|].
  destruct (@quoted_content_enters_markup_unescaped Sample.upperId
              SampleRender.unicodeLower SampleRender.ToStringOther
              SampleRender.lengthIsPositive SampleRender.readOfNull
              SampleRender.notCallable (js "t")
              (js "<img src=x onerror=alert(1)> secret") eq_refl)
    as (second & W).
  exists (Render.tacticHtml0 ++ js "Emotional Manipulation"
          ++ Render.tacticHtml1 ++ js "emotional"
          ++ Render.tacticHtml2 ++ js "EMOTIONAL"
          ++ Render.tacticHtml3
          ++ js "Uses strong emotional language to bypass critical thinking"
          ++ Render.tacticHtml4),
    Render.tacticHtml5, [second].
  rewrite W. vm_compute. reflexivity.
Defined.

(** The local server answers the POST with the body [null]. *)
Lemma analysis_failure_needs_live_payload_witness :
  let p := set_activeBackendUrl (Some Sample.localhost) (initialPage (js "hello")) in
  let final :=
    run (analyzeContent Sample.upperId SampleRender.nullNetwork Sample.clock
           SampleRender.rendering) p in
  errorSection_hidden final = false /\
  exists v e, SampleRender.rendering v = Some e.
Proof.
  cbv zeta. split; [reflexivity|].
  destruct (@analysis_failure_needs_live_payload Sample.upperId
              SampleRender.nullNetwork Sample.clock SampleRender.unicodeLower
              SampleRender.ToStringOther SampleRender.lengthIsPositive
              SampleRender.readOfNull SampleRender.notCallable
              (set_activeBackendUrl (Some Sample.localhost)
                 (initialPage (js "hello")))
              eq_refl eq_refl)
    as (base & r & v & e & _ & _ & _ & _ & R & _).
  exists v, e. exact R.
Defined.

Lemma null_payload_shows_failure_witness :
  let p := set_activeBackendUrl (Some Sample.localhost) (initialPage (js "hello")) in
  let final :=
    run (analyzeContent Sample.upperId SampleRender.nullNetwork Sample.clock
           SampleRender.rendering) p in
  ok (mkResponse 200 (js "OK") (JsonResolves Null)) = true /\
  displayed (events final) = [Null] /\
  errorSection_hidden final = false.
Proof.
  cbv zeta. split; [reflexivity|].
  destruct (@null_payload_shows_failure Sample.upperId
              SampleRender.nullNetwork Sample.clock SampleRender.unicodeLower
              SampleRender.ToStringOther SampleRender.lengthIsPositive
              SampleRender.readOfNull SampleRender.notCallable
              (set_activeBackendUrl (Some Sample.localhost)
                 (initialPage (js "hello")))
              Sample.localhost
              (mkResponse 200 (js "OK") (JsonResolves Null))
              eq_refl eq_refl eq_refl eq_refl eq_refl eq_refl)
    as (_ & D & _ & E & _).
  split; [exact D | exact E].
Defined.

(** A number in place of the report: the defaults, no exception. *)
Lemma renderer_tolerates_missing_groups_witness :
  Num 42 <> Null /\
  snd (Render.displayReportBody SampleRender.unicodeLower
         SampleRender.ToStringOther SampleRender.lengthIsPositive
         SampleRender.readOfNull SampleRender.notCallable (Num 42))
  = Normal tt.
Proof.
  assert (H : Num 42 <> Null) by discriminate.
  split; [exact H|].
  exact (proj1 (@renderer_tolerates_missing_groups SampleRender.unicodeLower
                  SampleRender.ToStringOther SampleRender.lengthIsPositive
                  SampleRender.readOfNull SampleRender.notCallable (Num 42)
                  H (fun k _ => eq_refl))).
Defined.

(** A synthesized report conforms, so it renders. *)
Lemma renderer_accepts_conforming_reports_witness :
  let report := getDemoAnalysis Sample.upperId (js "t") (js "hello") in
  Spec.ReportSchema report = true /\
  snd (Render.displayReportBody SampleRender.unicodeLower
         SampleRender.ToStringOther SampleRender.lengthIsPositive
         SampleRender.readOfNull SampleRender.notCallable report)
  = Normal tt.
Proof.
  cbv zeta. split; [reflexivity|].
  exact (@renderer_accepts_conforming_reports SampleRender.unicodeLower
           SampleRender.ToStringOther SampleRender.lengthIsPositive
           SampleRender.readOfNull SampleRender.notCallable
           (getDemoAnalysis Sample.upperId (js "t") (js "hello")) eq_refl).
Defined.

(** The empty object has none of the groups. *)
Lemma legacy_renderer_needs_its_groups_witness :
  get "analysis_summary" (Obj []) = None /\
  exists e,
    snd (RenderLegacy.displayReportBody SampleRender.unicodeLower
           SampleRender.ToStringOther SampleRender.lengthIsPositive
           SampleRender.readOfNull SampleRender.readOfUndefined
           SampleRender.notCallable (Obj []))
    = Throw e.
Proof.
  split; [reflexivity|].
  exact (@legacy_renderer_needs_its_groups SampleRender.unicodeLower
           SampleRender.ToStringOther SampleRender.lengthIsPositive
           SampleRender.readOfNull SampleRender.readOfUndefined
           SampleRender.notCallable (Obj []) (or_introl eq_refl)).
Defined.

(** A synthesized report conforms, so both versions render it alike. *)
Lemma renderers_agree_on_conforming_reports_witness :
  let report := getDemoAnalysis Sample.upperId (js "t") (js "BREAKING!") in
  Spec.ReportSchema report = true /\
  RenderLegacy.displayReportBody SampleRender.unicodeLower
    SampleRender.ToStringOther SampleRender.lengthIsPositive
    SampleRender.readOfNull SampleRender.readOfUndefined
    SampleRender.notCallable report
  = Render.displayReportBody SampleRender.unicodeLower
      SampleRender.ToStringOther SampleRender.lengthIsPositive
      SampleRender.readOfNull SampleRender.notCallable report.
Proof.
  cbv zeta. split; [reflexivity|].
  exact (@renderers_agree_on_conforming_reports SampleRender.unicodeLower
           SampleRender.ToStringOther SampleRender.lengthIsPositive
           SampleRender.readOfNull SampleRender.readOfUndefined
           SampleRender.notCallable
           (getDemoAnalysis Sample.upperId (js "t") (js "BREAKING!")) eq_refl).
Defined.

End MoreRuns.
